(** * ExcelClient (src/msgraph.py): request descriptors and range addresses

    A shallow embedding of the range-address routine [get_range_of_data] and
    of the six descriptor builders of class [ExcelClient], with the
    properties the specification states about them.

    The source is Python 2 ([get_data] opens its csv file in mode 'rb', and
    [update_range] deletes keys of a dict while it walks its [items()]):
    [dict.items()] returns a list of pairs, in an order of the
    implementation's choice.  The embedding keeps a dict as the association
    list of its literal and takes the order of [items()] as a parameter,
    any permutation of the pairs. *)

From Stdlib Require Import String Ascii ZArith Lia Bool DecimalString.
From Stdlib Require Import List Permutation.
Import ListNotations.
Local Open Scope string_scope.
Local Open Scope Z_scope.

(** ** Python values *)

(** A cell of a table: the scalars [csv.reader] and a caller put in rows. *)
Inductive scalar : Type :=
| SNone
| SBool (b : bool)
| SInt (z : Z)
| SStr (s : string).

(** The values an argument can take.  A list is a table, a list of rows of
    scalars: the shape of [data] the program is written for, and the
    specification's Table.  Flat lists and deeper nestings are left out. *)
Inductive pyval : Type :=
| PNone
| PBool (b : bool)
| PInt (z : Z)
| PStr (s : string)
| PList (rows : list (list scalar)).

(** [v is None], [type(v) is str], [type(v) is list], [type(v) is bool]. *)
Definition is_none (v : pyval) : bool :=
  match v with PNone => true | _ => false end.

Definition is_str (v : pyval) : bool :=
  match v with PStr _ => true | _ => false end.

Definition is_list (v : pyval) : bool :=
  match v with PList _ => true | _ => false end.

Definition is_bool (v : pyval) : bool :=
  match v with PBool _ => true | _ => false end.

(** The text a [str] argument contributes to [str.format]; the builders
    format only arguments that passed the [type(v) is str] test. *)
Definition str_val (v : pyval) : string :=
  match v with PStr s => s | _ => EmptyString end.

(** ** Exceptions *)

Inductive exn : Type :=
| TypeError (msg : string)
| ValueError (msg : string)
| IndexError (msg : string)
| KeyError (key : string).

Inductive result (A : Type) : Type :=
| Ok (a : A)
| Raise (e : exn).

Arguments Ok {A} a.
Arguments Raise {A} e.

Definition bind {A B : Type} (r : result A) (k : A -> result B) : result B :=
  match r with
  | Ok a => k a
  | Raise e => Raise e
  end.

Notation "x <- r ;; k" := (bind r (fun x => k))
  (at level 61, r at next level, right associativity).

(** [try: r except IndexError: handler]. *)
Definition except_IndexError {A : Type} (r handler : result A) : result A :=
  match r with
  | Raise (IndexError _) => handler
  | _ => r
  end.

(** ** numpy *)

(** [np.shape] on the values above, as the numpy of Python 2 computes it:
    a scalar has shape [()], the empty list [(0,)], a table whose rows all
    have the length of the first [(rows, columns)], and a table with rows
    of different lengths is an array of row objects, of shape [(rows,)]
    (the case the [except IndexError] of [get_range_of_data] is for). *)
Definition np_shape (v : pyval) : list Z :=
  match v with
  | PList rows =>
      Z.of_nat (length rows) ::
      match rows with
      | [] => []
      | r :: rs =>
          if forallb (fun r' => Nat.eqb (length r') (length r)) rs
          then [Z.of_nat (length r)]
          else []
      end
  | _ => []
  end.

(** [t[i]] on a tuple. *)
Definition tuple_get (t : list Z) (i : nat) : result Z :=
  match nth_error t i with
  | Some x => Ok x
  | None => Raise (IndexError "tuple index out of range")
  end.

(** ** Builtins *)

(** [chr(i)] of Python 2. *)
Definition chr (i : Z) : result ascii :=
  if (0 <=? i) && (i <? 256)
  then Ok (ascii_of_N (Z.to_N i))
  else Raise (ValueError "chr() arg not in range(256)").

(** [str(i)] for an integer, as [format] prints it. *)
Definition str_of_int (i : Z) : string :=
  NilZero.string_of_int (Z.to_int i).

(** ** get_range_of_data *)

(** The loop [while col >= degree: degree *= 26; digits_num += 1].
    [fuel] bounds the number of tests of the condition. *)
Fixpoint count_digits (fuel : nat) (col degree : Z) (digits_num : nat)
  : option (Z * nat) :=
  match fuel with
  | O => None
  | S fuel' =>
      if col >=? degree
      then count_digits fuel' col (degree * 26) (S digits_num)
      else Some (degree, digits_num)
  end.

(** The loop [for i in range(digits_num, 0, -1)], at [i] with the running
    [col] and [xl_col]. *)
Fixpoint column_letters (i : nat) (col : Z) (xl_col : string) : result string :=
  match i with
  | O => Ok xl_col
  | S i' =>
      let n := col / 26 ^ Z.of_nat i' in
      c <- chr (64 + n) ;;
      column_letters i' (col - n * 26 ^ Z.of_nat i') (xl_col ++ String c EmptyString)
  end.

Definition msg_invalid_input : string := "Invalid input data".

Definition msg_columns_differ : string :=
  "Invalid format of data. Number of columns in lines differ".

(** [ExcelClient.get_range_of_data] (lines 253-281).  The result is [None]
    when [fuel] tests do not finish the [while] loop. *)
Definition get_range_of_data (fuel : nat) (data : pyval) : option (result string) :=
  if is_none data then Some (Raise (ValueError msg_invalid_input)) else
  match tuple_get (np_shape data) 0 with
  | Raise e => Some (Raise e)
  | Ok row =>
      match except_IndexError (tuple_get (np_shape data) 1)
                              (Raise (ValueError msg_columns_differ)) with
      | Raise e => Some (Raise e)
      | Ok col =>
          match count_digits fuel col 26 1 with
          | None => None
          | Some (_, digits_num) =>
              Some (xl_col <- column_letters digits_num col EmptyString ;;
                    Ok ("A1:" ++ xl_col ++ str_of_int row))
          end
      end
  end.

(** ** Dicts *)

(** A dict literal, as the list of its pairs in the order they are written.
    The keys of every literal of the program are distinct. *)
Definition dict : Type := list (string * pyval).

Definition keys (d : dict) : list string := map fst d.

Definition has_key (k : string) (d : dict) : bool :=
  existsb (fun kv => String.eqb (fst kv) k) d.

(** [del d[k]]. *)
Definition dict_del (k : string) (d : dict) : result dict :=
  if has_key k d
  then Ok (filter (fun kv => negb (String.eqb (fst kv) k)) d)
  else Raise (KeyError k).

(** ** Request descriptors *)

(** The list [[endpoint, type of request, body]] a builder returns; the
    body is [None] or a dict. *)
Record descriptor : Type := Descriptor {
  endpoint : string;
  type_of_request : string;
  request_body : option dict
}.

(** ** The validation loops *)

Definition msg_invalid_type (k : string) : string := "Invalid " ++ k ++ " type".

Definition msg_invalid_data : string := "Invalid data".

Definition msg_shape (k : string) : string :=
  k ++ " shape and data shape must be the same".

(** [for [k, v] in ...: if type(v) is not str: raise TypeError(...)]. *)
Fixpoint check_str (kvs : list (string * pyval)) : result unit :=
  match kvs with
  | [] => Ok tt
  | (k, v) :: rest =>
      if is_str v then check_str rest
      else Raise (TypeError (msg_invalid_type k))
  end.

(** The loop of [update_range] over [data] and the list-typed fields. *)
Fixpoint check_lists (size : list Z) (kvs : list (string * pyval)) : result unit :=
  match kvs with
  | [] => Ok tt
  | (k, v) :: rest =>
      if is_none v then check_lists size rest
      else if is_list v then
        if list_eq_dec Z.eq_dec (np_shape v) size then check_lists size rest
        else Raise (ValueError (msg_shape k))
      else Raise (TypeError (msg_invalid_type k))
  end.

(** The loop of [update_range] over [columnHidden] and [rowHidden]. *)
Fixpoint check_bools (kvs : list (string * pyval)) : result unit :=
  match kvs with
  | [] => Ok tt
  | (k, v) :: rest =>
      if negb (is_none v) && negb (is_bool v)
      then Raise (TypeError (msg_invalid_type k))
      else check_bools rest
  end.

(** [for [k, v] in request_body.items(): if v is None: del request_body[k]],
    over the list [kvs] that [items()] returned before the loop. *)
Fixpoint drop_unset (kvs : list (string * pyval)) (request_body : dict) : result dict :=
  match kvs with
  | [] => Ok request_body
  | (k, v) :: rest =>
      if is_none v
      then request_body' <- dict_del k request_body ;; drop_unset rest request_body'
      else drop_unset rest request_body
  end.

(** ** The builders *)

(** A keyword argument with a default is an [option], [None] when the call
    leaves it out; [keyword] is the value the body then sees. *)
Definition keyword (default : string) (v : option pyval) : pyval :=
  match v with Some v => v | None => PStr default end.

Section Builders.

(** [d.items()]: the pairs of [d] in the order the implementation keeps,
    a permutation of the pairs (the hypothesis of the properties below). *)
Variable items : dict -> list (string * pyval).

(** [ExcelClient.update_range] (lines 48-113). *)
Definition update_range
  (file_id sheetname range data format columnHidden formulas formulasLocal
     formulasR1C1 rowHidden : pyval) : result descriptor :=
  _ <- check_str (items [("file_id", file_id); ("sheetname", sheetname);
                         ("range", range)]) ;;
  if is_none data then Raise (ValueError msg_invalid_data) else
  let size := np_shape data in
  _ <- check_lists size
         (items [("data", data); ("format", format); ("formulas", formulas);
                 ("formulasLocal", formulasLocal);
                 ("formulasR1C1", formulasR1C1)]) ;;
  _ <- check_bools (items [("columnHidden", columnHidden);
                           ("rowHidden", rowHidden)]) ;;
  let request_body :=
    [("values", data); ("numberFormat", format);
     ("columnHidden", columnHidden); ("formulas", formulas);
     ("formulasLocal", formulasLocal); ("formulasR1C1", formulasR1C1);
     ("rowHidden", rowHidden)] in
  request_body <- drop_unset (items request_body) request_body ;;
  Ok (Descriptor
        ("/me/drive/items/" ++ str_val file_id ++ "/workbook/worksheets/"
           ++ str_val sheetname ++ "/range(address='" ++ str_val range ++ "')")
        "patch" (Some request_body)).

(** [ExcelClient.get_range] (lines 115-133). *)
Definition get_range (file_id sheetname range : pyval) : result descriptor :=
  _ <- check_str (items [("file_id", file_id); ("sheetname", sheetname);
                         ("range", range)]) ;;
  Ok (Descriptor
        ("/me/drive/items/" ++ str_val file_id ++ "/workbook/worksheets/"
           ++ str_val sheetname ++ "/range(address='" ++ str_val range ++ "')")
        "get" None).

(** [ExcelClient.insert_empty_cells] (lines 135-161), [shift="Down"]. *)
Definition insert_empty_cells (file_id sheetname range : pyval)
  (shift : option pyval) : result descriptor :=
  let shift := keyword "Down" shift in
  _ <- check_str (items [("file_id", file_id); ("sheetname", sheetname);
                         ("range", range); ("shift", shift)]) ;;
  let request_body := [("shift", shift)] in
  Ok (Descriptor
        ("/me/drive/items/" ++ str_val file_id ++ "/workbook/worksheets/"
           ++ str_val sheetname ++ "/range(address='" ++ str_val range
           ++ "')/insert")
        "post" (Some request_body)).

(** [ExcelClient.clear_range] (lines 163-190), [applyTo="All"]. *)
Definition clear_range (file_id sheetname range : pyval)
  (applyTo : option pyval) : result descriptor :=
  let applyTo := keyword "All" applyTo in
  _ <- check_str (items [("file_id", file_id); ("sheetname", sheetname);
                         ("range", range); ("applyTo", applyTo)]) ;;
  let request_body := [("applyTo", applyTo)] in
  Ok (Descriptor
        ("/me/drive/items/" ++ str_val file_id ++ "/workbook/worksheets/"
           ++ str_val sheetname ++ "/range(address='" ++ str_val range
           ++ "')/clear")
        "post" (Some request_body)).

(** [ExcelClient.delete_range] (lines 192-218), [shift="Up"]. *)
Definition delete_range (file_id sheetname range : pyval)
  (shift : option pyval) : result descriptor :=
  let shift := keyword "Up" shift in
  _ <- check_str (items [("file_id", file_id); ("sheetname", sheetname);
                         ("range", range); ("shift", shift)]) ;;
  let request_body := [("shift", shift)] in
  Ok (Descriptor
        ("/me/drive/items/" ++ str_val file_id ++ "/workbook/worksheets/"
           ++ str_val sheetname ++ "/range(address='" ++ str_val range
           ++ "')/delete")
        "post" (Some request_body)).

(** [ExcelClient.get_rangeFormat] (lines 220-237). *)
Definition get_rangeFormat (file_id sheetname range : pyval) : result descriptor :=
  _ <- check_str (items [("file_id", file_id); ("sheetname", sheetname);
                         ("range", range)]) ;;
  Ok (Descriptor
        ("/me/drive/items/" ++ str_val file_id ++ "/workbook/worksheets/"
           ++ str_val sheetname ++ "/range(address='" ++ str_val range
           ++ "')/format")
        "get" None).

End Builders.

(** The order in which the pairs are written. *)
Definition written_order (d : dict) : list (string * pyval) := d.

(** ** The specification's vocabulary *)

(** The letter of a digit: A for 1, ..., Z for 26. *)
Definition letter (d : Z) : ascii := ascii_of_N (Z.to_N (64 + d)).

(** The specification's [letters]: the bijective base-26 numeral of a column
    count, digits A (1) to Z (26), no zero digit.  [fuel] bounds the number
    of digits. *)
Fixpoint bijective26 (fuel : nat) (c : Z) : string :=
  match fuel with
  | O => EmptyString
  | S fuel' =>
      if c <=? 0 then EmptyString
      else bijective26 fuel' ((c - 1) / 26)
             ++ String (letter ((c - 1) mod 26 + 1)) EmptyString
  end.

Definition letters (c : Z) : string := bijective26 (Z.to_nat c) c.

(** No digit of [c] in ordinary base 26 is zero. *)
Definition no_zero_digit (c : Z) : Prop :=
  forall j : nat, 26 ^ Z.of_nat j <= c -> (c / 26 ^ Z.of_nat j) mod 26 <> 0.

(** The path pattern the six builders share:
    [/me/drive/items/<file id>/workbook/worksheets/<sheet>/range(address='<range>')<suffix>]. *)
Definition range_endpoint (file_id sheetname range suffix : string) : string :=
  "/me/drive/items/" ++ file_id ++ "/workbook/worksheets/" ++ sheetname
    ++ "/range(address='" ++ range ++ "')" ++ suffix.

(** What the list loop of [update_range] accepts: an unset field, or a
    list of the shape of [data]. *)
Definition list_field_ok (size : list Z) (v : pyval) : Prop :=
  v = PNone \/ (is_list v = true /\ np_shape v = size).

(** Whether the pairs [kvs] hold key [k] with the value [None]. *)
Definition unset_in (kvs : list (string * pyval)) (k : string) : bool :=
  existsb (fun kv => String.eqb (fst kv) k && is_none (snd kv)) kvs.

(** The optional list-typed fields of [update_range], by argument name. *)
Definition list_fields (format formulas formulasLocal formulasR1C1 : pyval) : dict :=
  [("format", format); ("formulas", formulas);
   ("formulasLocal", formulasLocal); ("formulasR1C1", formulasR1C1)].

(** The body of [update_range] before the unset fields are deleted. *)
Definition full_body
  (data format columnHidden formulas formulasLocal formulasR1C1 rowHidden : pyval)
  : dict :=
  [("values", data); ("numberFormat", format); ("columnHidden", columnHidden);
   ("formulas", formulas); ("formulasLocal", formulasLocal);
   ("formulasR1C1", formulasR1C1); ("rowHidden", rowHidden)].

(** A value that is provided ([not None]) and is not a [bool]. *)
Definition not_bool (v : pyval) : bool := negb (is_none v) && negb (is_bool v).

(** The call raised the [TypeError] of one of the arguments [names]. *)
Definition raises_TypeError {A : Type} (r : result A) (names : list string) : Prop :=
  exists k, In k names /\ r = Raise (TypeError (msg_invalid_type k)).

(** A row of [n] cells. *)
Definition cells (n : nat) : list scalar := repeat (SStr "x") n.

(** ** The script: from the table to the request (lines 296-311) *)

(** [configs]: the address of [data] from [get_range_of_data], given to
    [delete_range] with the file id and the sheet of the script. *)
Definition configs (items : dict -> list (string * pyval)) (fuel : nat)
  (data : pyval) : option (result descriptor) :=
  match get_range_of_data fuel data with
  | None => None
  | Some r =>
      Some (range <- r ;;
            delete_range items (PStr "01BEQXWXBQ2QNOPSCY4NB2EEE3V2K53RA5")
              (PStr "Sheet1") (PStr range) None)
  end.

(** ** The client's configuration (lines 16-46) *)

(** The attributes [__init__] sets, with the types its docstring gives
    them; [PORT] is the integer [get_port] returns. *)
Record ExcelClient : Type := Client {
  RESOURCE : string;
  TENANT : string;
  AUTHORITY_HOST_URL : string;
  CLIENT_ID : string;
  CLIENT_SECRET : string;
  API_VERSION : string;
  AUTHORITY_URL : string;
  HOST : string;
  PORT : Z;
  REDIRECT_URI : string
}.

(** [ExcelClient.__init__]. *)
Definition init (RESOURCE TENANT AUTHORITY_HOST_URL CLIENT_ID CLIENT_SECRET
                   API_VERSION HOST : string) (PORT : Z) : ExcelClient :=
  Client RESOURCE TENANT AUTHORITY_HOST_URL CLIENT_ID CLIENT_SECRET API_VERSION
    (AUTHORITY_HOST_URL ++ "/" ++ TENANT) HOST PORT
    ("http://" ++ HOST ++ ":" ++ str_of_int PORT ++ "/getAToken").

(** [TEMPLATE_AUTHZ_URL.format(tenant, client_id, redirect_uri, state, resource)]. *)
Definition TEMPLATE_AUTHZ_URL (tenant client_id redirect_uri state resource : string)
  : string :=
  "https://login.microsoftonline.com/" ++ tenant
    ++ "/oauth2/authorize?response_type=code&client_id=" ++ client_id
    ++ "&redirect_uri=" ++ redirect_uri ++ "&state=" ++ state
    ++ "&resource=" ++ resource.

(** ** The web handlers (lines 313-370) *)

(** [flask.session] and [flask.request.args]: dicts from [str] to [str]. *)
Definition session : Type := list (string * string).

(** [d.get(k)]: the value of [k], [None] when [d] has no such key. *)
Fixpoint session_get (k : string) (s : session) : option string :=
  match s with
  | [] => None
  | (k', v) :: s' => if String.eqb k' k then Some v else session_get k s'
  end.

(** [d[k] = v]. *)
Fixpoint session_set (k v : string) (s : session) : session :=
  match s with
  | [] => [(k, v)]
  | (k', v') :: s' =>
      if String.eqb k' k then (k, v) :: s' else (k', v') :: session_set k v s'
  end.

(** The functions of [requests] the script calls. *)
Inductive http_method : Type := GET | PUT | PATCH | POST | DELETE.

(** A call [requests.<method>(url, headers=headers, json=json, stream=False)];
    [json] is [None] when the call passes no [json] argument. *)
Record http_request : Type := Request {
  method : http_method;
  url : string;
  headers : list (string * string);
  json : option (option dict)
}.

Section Web.

(** The parsed JSON of a reply, and the exceptions of the libraries the
    handlers call ([adal], [requests]). *)
Variables (J E : Type).

(** What ends a handler other than a response. *)
Inductive failure : Type :=
| Exception (e : exn)
| UnboundLocalError (name : string)
| External (e : E).

Inductive outcome (A : Type) : Type :=
| Returned (a : A)
| Raised (f : failure).

(** [flask.Response(status=...)] with a [location] header and
    [flask.redirect] (status 302), or [flask.render_template]. *)
Inductive response : Type :=
| Redirect (status : Z) (location : string)
| Rendered (template : string) (graph_data : J).

(** [AuthenticationContext(authority).acquire_token_with_authorization_code(code,
    redirect_uri, resource, client_id, client_secret)]: the token response,
    a dict, or the exception of the library. *)
Variable acquire_token :
  string -> string -> string -> string -> string -> string -> E + session.

(** [requests.<method>(...).json()]. *)
Variable send : http_request -> E + J.

Variable excelclient : ExcelClient.

(** The route "/". *)
Definition main (s : session) : session * outcome response :=
  let login_url := "http://localhost:" ++ str_of_int (PORT excelclient) ++ "/login" in
  (s, Returned response (Redirect 307 login_url)).

(** The route "/login"; [auth_state] is [str(uuid.uuid4())]. *)
Definition login (auth_state : string) (s : session) : session * outcome response :=
  let s := session_set "state" auth_state s in
  let authorization_url :=
    TEMPLATE_AUTHZ_URL (TENANT excelclient) (CLIENT_ID excelclient)
      (REDIRECT_URI excelclient) auth_state (RESOURCE excelclient) in
  (s, Returned response (Redirect 307 authorization_url)).

(** The route "/getAToken"; [args] is [flask.request.args].  A missing key
    raises [KeyError] (for [args], flask's [BadRequestKeyError], a
    [KeyError]).  The session is written last, so it is as it was when
    the handler raises. *)
Definition main_logic (args s : session) : session * outcome response :=
  match session_get "code" args with
  | None => (s, Raised response (Exception (KeyError "code")))
  | Some code =>
  match session_get "state" args with
  | None => (s, Raised response (Exception (KeyError "state")))
  | Some state =>
  match session_get "state" s with
  | None => (s, Raised response (Exception (KeyError "state")))
  | Some state' =>
      if negb (String.eqb state state')
      then (s, Raised response (Exception (ValueError "State does not match")))
      else
        match acquire_token (AUTHORITY_URL excelclient) code
                (REDIRECT_URI excelclient) (RESOURCE excelclient)
                (CLIENT_ID excelclient) (CLIENT_SECRET excelclient) with
        | inl e => (s, Raised response (External e))
        | inr token_response =>
            match session_get "accessToken" token_response with
            | None => (s, Raised response (Exception (KeyError "accessToken")))
            | Some access_token =>
                (session_set "access_token" access_token s,
                 Returned response (Redirect 302 "/graphcall"))
            end
        end
  end end end.

(** The route "/graphcall", for the descriptor [configs] of the script;
    [client_request_id] is [str(uuid.uuid4())].  The test
    ['access_token' not in flask.session] and the later
    [flask.session.get('access_token')] are one lookup here;
    [flask.url_for('login')] is "/login".  No branch of the [if] chain
    binds [graph_data] for another type of request. *)
Definition graphcall (configs : descriptor) (client_request_id : string)
  (s : session) : session * outcome response :=
  match session_get "access_token" s with
  | None => (s, Returned response (Redirect 302 "/login"))
  | Some access_token =>
      let endpoint_url :=
        RESOURCE excelclient ++ "/" ++ API_VERSION excelclient ++ endpoint configs in
      let http_headers :=
        [("Authorization", "Bearer " ++ access_token);
         ("User-Agent", "adal-python-sample");
         ("Accept", "application/json");
         ("Content-Type", "application/json");
         ("client-request-id", client_request_id)] in
      let TYPE_OF_REQUEST := type_of_request configs in
      let REQUEST_BODY := request_body configs in
      let reply :=
        if String.eqb TYPE_OF_REQUEST "get"
        then Some (send (Request GET endpoint_url http_headers None))
        else if String.eqb TYPE_OF_REQUEST "put"
        then Some (send (Request PUT endpoint_url http_headers (Some REQUEST_BODY)))
        else if String.eqb TYPE_OF_REQUEST "patch"
        then Some (send (Request PATCH endpoint_url http_headers (Some REQUEST_BODY)))
        else if String.eqb TYPE_OF_REQUEST "post"
        then Some (send (Request POST endpoint_url http_headers (Some REQUEST_BODY)))
        else if String.eqb TYPE_OF_REQUEST "delete"
        then Some (send (Request DELETE endpoint_url http_headers (Some REQUEST_BODY)))
        else None in
      match reply with
      | None => (s, Raised response (UnboundLocalError "graph_data"))
      | Some (inl e) => (s, Raised response (External e))
      | Some (inr graph_data) =>
          (s, Returned response (Rendered "display_graph_info.html" graph_data))
      end
  end.

(** A request of the browser to one of the four routes. *)
Inductive route : Type :=
| Root
| Login (auth_state : string)
| GetAToken (args : session)
| Graphcall (configs : descriptor) (client_request_id : string).

Definition handle (r : route) (s : session) : session * outcome response :=
  match r with
  | Root => main s
  | Login auth_state => login auth_state s
  | GetAToken args => main_logic args s
  | Graphcall configs client_request_id => graphcall configs client_request_id s
  end.

(** The session after a sequence of requests of one browser. *)
Fixpoint browse (rs : list route) (s : session) : session :=
  match rs with
  | [] => s
  | r :: rs' => browse rs' (fst (handle r s))
  end.

(** The token request of the callback, and what [graphcall] makes of a
    reply: names for the statements below. *)
Definition token_request (code : string) : E + session :=
  acquire_token (AUTHORITY_URL excelclient) code (REDIRECT_URI excelclient)
    (RESOURCE excelclient) (CLIENT_ID excelclient) (CLIENT_SECRET excelclient).

Definition rendered (reply : E + J) : outcome response :=
  match reply with
  | inl e => Raised response (External e)
  | inr graph_data =>
      Returned response (Rendered "display_graph_info.html" graph_data)
  end.

End Web.

Arguments Returned {E A} a.
Arguments Raised {E A} f.
Arguments Exception {E} e.
Arguments UnboundLocalError {E} name.
Arguments External {E} e.
Arguments Redirect {J} status location.
Arguments Rendered {J} template graph_data.

(** ** More of the specification's vocabulary *)

(** The number a spreadsheet reads in column letters: base 26, A for 1.
    ["@"] counts 0 here. *)
Fixpoint column_number_from (acc : Z) (s : string) : Z :=
  match s with
  | EmptyString => acc
  | String c s' =>
      column_number_from (acc * 26 + (Z.of_N (N_of_ascii c) - 64)) s'
  end.

Definition column_number (s : string) : Z := column_number_from 0 s.

(** The descriptor [update_range] returns when it returns. *)
Definition update_range_descriptor
  (file_id sheetname range data format columnHidden formulas formulasLocal
     formulasR1C1 rowHidden : pyval) : descriptor :=
  Descriptor
    (range_endpoint (str_val file_id) (str_val sheetname) (str_val range)
       EmptyString)
    "patch"
    (Some (filter (fun kv => negb (is_none (snd kv)))
             (full_body data format columnHidden formulas formulasLocal
                formulasR1C1 rowHidden))).

(** The arguments [update_range] accepts. *)
Definition update_range_accepts
  (file_id sheetname range data format columnHidden formulas formulasLocal
     formulasR1C1 rowHidden : pyval) : Prop :=
  forallb is_str [file_id; sheetname; range] = true
  /\ is_list data = true
  /\ (forall k v,
        In (k, v) (list_fields format formulas formulasLocal formulasR1C1) ->
        list_field_ok (np_shape data) v)
  /\ not_bool columnHidden = false
  /\ not_bool rowHidden = false.

(** A descriptor that one of the six builders returned. *)
Definition built (items : dict -> list (string * pyval)) (d : descriptor) : Prop :=
  (exists file_id sheetname range data format columnHidden formulas formulasLocal
          formulasR1C1 rowHidden,
      update_range items file_id sheetname range data format columnHidden
        formulas formulasLocal formulasR1C1 rowHidden = Ok d)
  \/ (exists file_id sheetname range,
        get_range items file_id sheetname range = Ok d)
  \/ (exists file_id sheetname range shift,
        insert_empty_cells items file_id sheetname range shift = Ok d)
  \/ (exists file_id sheetname range applyTo,
        clear_range items file_id sheetname range applyTo = Ok d)
  \/ (exists file_id sheetname range shift,
        delete_range items file_id sheetname range shift = Ok d)
  \/ (exists file_id sheetname range,
        get_rangeFormat items file_id sheetname range = Ok d).

(** The headers [graphcall] sends. *)
Definition http_headers (access_token client_request_id : string)
  : list (string * string) :=
  [("Authorization", "Bearer " ++ access_token);
   ("User-Agent", "adal-python-sample");
   ("Accept", "application/json");
   ("Content-Type", "application/json");
   ("client-request-id", client_request_id)].

(** The client of the script (with port 5000), and a token endpoint and a
    server that answer every call: the setting of the examples below. *)
Definition script_client : ExcelClient :=
  init "https://graph.microsoft.com" "your tenant"
    "https://login.microsoftonline.com" "your client id" "your client secret"
    "v1.0" "localhost" 5000.

Definition answering_token_endpoint
  (authority code redirect_uri resource client_id client_secret : string)
  : string + session :=
  inr [("tokenType", "Bearer"); ("accessToken", "token for " ++ code)].

Definition answering_server (r : http_request) : string + string :=
  inr "{}".

(** ** The shape of a table, row by row *)

(** The length of every row of a table, in order: its number of rows and
    the number of cells of each. *)
Definition row_lengths (rows : list (list scalar)) : list nat :=
  map (@length scalar) rows.


(** ** [get_range_of_data] on nested lists and tuples *)

(** [get_range_of_data] tests [data is None] and gives every other value
    to [np.shape], which takes tuples as it takes lists, at any depth.
    The values here are [None], [bool], [int], [str], and the lists and
    tuples of such values; a table of [pyval] is one of them. *)
Module ArrayLike.

Local Unset Elimination Schemes.

Inductive value : Type :=
| VNone
| VBool (b : bool)
| VInt (z : Z)
| VStr (s : string)
| VList (xs : list value)
| VTuple (xs : list value).

Local Set Elimination Schemes.

Definition is_none (v : value) : bool :=
  match v with VNone => true | _ => false end.


(** The entries on which two shapes agree, from the left. *)
Fixpoint common_prefix (a b : list Z) : list Z :=
  match a, b with
  | x :: a', y :: b' => if Z.eqb x y then x :: common_prefix a' b' else []
  | _, _ => []
  end.

(** The dimensions numpy (of Python 2) discovers in a nested sequence: the
    number of items, followed by the dimensions all the items agree on.
    [None], [bool], [int] and [str] have none. *)
Fixpoint discover_dimensions (v : value) : list Z :=
  match v with
  | VList xs | VTuple xs =>
      Z.of_nat (length xs) ::
      match map discover_dimensions xs with
      | [] => []
      | d :: ds => fold_left common_prefix ds d
      end
  | _ => []
  end.


(** [np.shape]; numpy keeps at most 32 dimensions. *)
Definition np_shape (v : value) : list Z := firstn 32 (discover_dimensions v).

(** [ExcelClient.get_range_of_data] (lines 253-281). *)
Definition get_range_of_data (fuel : nat) (data : value) : option (result string) :=
  if is_none data then Some (Raise (ValueError msg_invalid_input)) else
  match tuple_get (np_shape data) 0 with
  | Raise e => Some (Raise e)
  | Ok row =>
      match except_IndexError (tuple_get (np_shape data) 1)
                              (Raise (ValueError msg_columns_differ)) with
      | Raise e => Some (Raise e)
      | Ok col =>
          match count_digits fuel col 26 1 with
          | None => None
          | Some (_, digits_num) =>
              Some (xl_col <- column_letters digits_num col EmptyString ;;
                    Ok ("A1:" ++ xl_col ++ str_of_int row))
          end
      end
  end.


Definition of_scalar (c : scalar) : value :=
  match c with
  | SNone => VNone
  | SBool b => VBool b
  | SInt z => VInt z
  | SStr s => VStr s
  end.

(** The values of [pyval] among these. *)
Definition of_pyval (v : pyval) : value :=
  match v with
  | PNone => VNone
  | PBool b => VBool b
  | PInt z => VInt z
  | PStr s => VStr s
  | PList rows => VList (map (fun r => VList (map of_scalar r)) rows)
  end.

End ArrayLike.

(** * Properties *)

Lemma written_order_perm (d : dict) : Permutation (written_order d) d.
Proof. apply Permutation_refl. Qed.

(** ** Range addresses *)

Example letters_examples :
  map letters [1; 26; 27; 52; 53; 702; 703]
  = ["A"; "Z"; "AA"; "AZ"; "BA"; "ZZ"; "AAA"].
Proof. vm_compute. reflexivity. Qed.

Example get_range_of_data_3x2 :
  get_range_of_data 1
    (PList [[SStr "a"; SStr "b"]; [SStr "c"; SStr "d"]; [SStr "e"; SStr "f"]])
  = Some (Ok "A1:B3").
Proof. reflexivity. Qed.

Example get_range_of_data_27_columns :
  get_range_of_data 2 (PList [cells 27]) = Some (Ok "A1:AA1").
Proof. reflexivity. Qed.

(** The column counts of the specification's examples on which the program
    agrees with [letters]. *)
Example get_range_of_data_agrees :
  forall c, In c [1; 27; 53; 703]%nat ->
  get_range_of_data 3 (PList [cells c])
  = Some (Ok ("A1:" ++ letters (Z.of_nat c) ++ "1")).
Proof.
  intros c Hc. simpl in Hc.
  destruct Hc as [<- | [<- | [<- | [<- | []]]]]; vm_compute; reflexivity.
Qed.

(** C1, at the failing input: for one row of 26 columns the program
    answers "A1:A@1", where the specification's bijective encoding gives
    [letters 26 = "Z"], so "A1:Z1".  The [while] loop counts two digits for
    26, and the second digit is 0, printed as [chr(64)]. *)
Theorem get_range_of_data_26_columns (fuel : nat) :
  get_range_of_data (S (S fuel)) (PList [cells 26]) = Some (Ok "A1:A@1")
  /\ "A1:" ++ letters 26 ++ str_of_int 1 = "A1:Z1".
Proof.
  split.
  - unfold get_range_of_data. cbn -[column_letters count_digits].
    unfold count_digits. reflexivity.
  - vm_compute. reflexivity.
Qed.

(** The same happens at every multiple of 26 among the examples. *)
Example get_range_of_data_multiples_of_26 :
  map (fun c => get_range_of_data 3 (PList [cells c])) [26; 52; 702]%nat
  = [Some (Ok "A1:A@1"); Some (Ok "A1:B@1"); Some (Ok "A1:AA@1")].
Proof. vm_compute. reflexivity. Qed.

(** [np.shape] of a table with two rows of different lengths is [(rows,)]. *)
Lemma np_shape_ragged (rows : list (list scalar)) (r1 r2 : list scalar) :
  In r1 rows -> In r2 rows -> length r1 <> length r2 ->
  np_shape (PList rows) = [Z.of_nat (length rows)].
Proof.
  intros H1 H2 Hne. destruct rows as [|r rs]; [contradiction|].
  unfold np_shape.
  destruct (forallb (fun r' => Nat.eqb (length r') (length r)) rs) eqn:Hall;
    [|reflexivity].
  exfalso. rewrite forallb_forall in Hall.
  assert (Hlen : forall r', In r' (r :: rs) -> length r' = length r).
  { intros r' [<- | Hin]; [reflexivity|].
    apply Nat.eqb_eq. apply Hall. exact Hin. }
  apply Hne. rewrite (Hlen r1 H1), (Hlen r2 H2). reflexivity.
Qed.

(** [np.shape] of a table of [R >= 1] rows of [C] cells each is [(R, C)]. *)
Lemma np_shape_rectangular (r : list scalar) (rs : list (list scalar)) :
  (forall r', In r' rs -> length r' = length r) ->
  np_shape (PList (r :: rs))
  = [Z.of_nat (length (r :: rs)); Z.of_nat (length r)].
Proof.
  intros Hall. unfold np_shape.
  replace (forallb (fun r' => Nat.eqb (length r') (length r)) rs) with true;
    [reflexivity|].
  symmetry. apply forallb_forall. intros r' Hin.
  apply Nat.eqb_eq. apply Hall. exact Hin.
Qed.

(** C2: a table in which two rows have different lengths makes
    [get_range_of_data] raise the [ValueError] of its [except IndexError]
    branch (the specification's ShapeMismatch), whatever the fuel: the
    [while] loop is not reached. *)
Theorem get_range_of_data_ragged (fuel : nat) (rows : list (list scalar))
  (r1 r2 : list scalar) :
  In r1 rows -> In r2 rows -> length r1 <> length r2 ->
  get_range_of_data fuel (PList rows)
  = Some (Raise (ValueError msg_columns_differ)).
Proof.
  intros H1 H2 Hne. unfold get_range_of_data.
  rewrite (np_shape_ragged rows r1 r2 H1 H2 Hne). reflexivity.
Qed.

Lemma get_range_of_data_ragged_witness :
  get_range_of_data 0 (PList [[SStr "a"; SStr "b"]; [SStr "c"]])
  = Some (Raise (ValueError msg_columns_differ)).
Proof.
  apply (get_range_of_data_ragged 0 _ [SStr "a"; SStr "b"] [SStr "c"]).
  - simpl. left. reflexivity.
  - simpl. right. left. reflexivity.
  - simpl. discriminate.
Defined.

(** C10: the empty table has shape [(0,)], so the lookup of the column
    count raises [IndexError] and [get_range_of_data] raises the
    [ValueError] of the [except] branch: the outcome of every ragged table,
    not the one it keeps for [None]. *)
Theorem get_range_of_data_empty (fuel : nat) :
  tuple_get (np_shape (PList [])) 1 = Raise (IndexError "tuple index out of range")
  /\ get_range_of_data fuel (PList [])
     = Some (Raise (ValueError msg_columns_differ))
  /\ (forall rows r1 r2,
        In r1 rows -> In r2 rows -> length r1 <> length r2 ->
        get_range_of_data fuel (PList []) = get_range_of_data fuel (PList rows))
  /\ get_range_of_data fuel (PList []) <> get_range_of_data fuel PNone.
Proof.
  split; [reflexivity|]. split; [reflexivity|]. split.
  - intros rows r1 r2 H1 H2 Hne. unfold get_range_of_data.
    rewrite (np_shape_ragged rows r1 r2 H1 H2 Hne). reflexivity.
  - unfold get_range_of_data. simpl. discriminate.
Qed.

(** ** Rectangular tables: the call returns *)

Lemma append_nil_r (a : string) : a ++ EmptyString = a.
Proof. induction a as [|x a IH]; simpl; [reflexivity | rewrite IH; reflexivity]. Qed.

Lemma append_assoc (a b c : string) : (a ++ b) ++ c = a ++ b ++ c.
Proof. induction a as [|x a IH]; simpl; [reflexivity | rewrite IH; reflexivity]. Qed.

(** The [while] loop ends within [col] tests of its condition, on the
    first power of 26 above [col] that it tries. *)
Lemma count_digits_enough (fuel : nat) (col : Z) (n : nat) :
  (Z.to_nat (col + 1 - 26 ^ Z.of_nat n) < fuel)%nat ->
  exists m,
    count_digits fuel col (26 ^ Z.of_nat n) n = Some (26 ^ Z.of_nat m, m)
    /\ col < 26 ^ Z.of_nat m
    /\ (n <= m)%nat
    /\ ((n < m)%nat -> 26 ^ Z.of_nat (Nat.pred m) <= col).
Proof.
  revert n. induction fuel as [|fuel IH]; intros n Hfuel; [lia|].
  assert (Hpos : 0 < 26 ^ Z.of_nat n) by (apply Z.pow_pos_nonneg; lia).
  assert (Hsucc : 26 ^ Z.of_nat (S n) = 26 ^ Z.of_nat n * 26)
    by (rewrite Nat2Z.inj_succ, Z.pow_succ_r; lia).
  simpl. destruct (col >=? 26 ^ Z.of_nat n) eqn:Hge;
    rewrite Z.geb_leb in Hge.
  - apply Z.leb_le in Hge. rewrite <- Hsucc.
    destruct (IH (S n)) as (m & Hm & Hlt & Hle & Hlow).
    { rewrite Hsucc. lia. }
    exists m. repeat split; [exact Hm | exact Hlt | lia |].
    intros _. destruct (Nat.eq_dec m (S n)) as [-> | Hne].
    + exact Hge.
    + apply Hlow. lia.
  - apply Z.leb_gt in Hge. exists n.
    repeat split; [exact Hge | lia | lia].
Qed.

Lemma chr_letter (n : Z) : 0 <= n < 26 -> chr (64 + n) = Ok (letter n).
Proof.
  intros Hn. unfold chr.
  replace ((0 <=? 64 + n) && (64 + n <? 256)) with true; [reflexivity|].
  symmetry. apply andb_true_intro.
  split; [apply Z.leb_le | apply Z.ltb_lt]; lia.
Qed.

Lemma column_letters_S (i : nat) (col : Z) (xl_col : string) :
  column_letters (S i) col xl_col
  = (c <- chr (64 + col / 26 ^ Z.of_nat i) ;;
     column_letters i (col - col / 26 ^ Z.of_nat i * 26 ^ Z.of_nat i)
       (xl_col ++ String c EmptyString)).
Proof. reflexivity. Qed.

Lemma pow26_S (i : nat) : 26 ^ Z.of_nat (S i) = 26 ^ Z.of_nat i * 26.
Proof. rewrite Nat2Z.inj_succ, Z.pow_succ_r; lia. Qed.

Lemma pow26_pos (i : nat) : 0 < 26 ^ Z.of_nat i.
Proof. apply Z.pow_pos_nonneg; lia. Qed.

(** Below [26 ^ i] the [for] loop never leaves the range of [chr]: it
    appends [i] characters. *)
Lemma column_letters_ok (i : nat) (col : Z) (xl_col : string) :
  0 <= col < 26 ^ Z.of_nat i ->
  exists s, String.length s = i /\ column_letters i col xl_col = Ok (xl_col ++ s).
Proof.
  revert col xl_col. induction i as [|i IH]; intros col xl_col Hcol.
  - exists EmptyString. split; [reflexivity|]. simpl.
    rewrite append_nil_r. reflexivity.
  - pose proof (pow26_pos i) as Hpos. rewrite pow26_S in Hcol.
    rewrite column_letters_S.
    set (p := 26 ^ Z.of_nat i) in *. set (n := col / p).
    assert (Hn : 0 <= n < 26).
    { unfold n. split; [apply Z.div_pos; lia|].
      apply Z.div_lt_upper_bound; lia. }
    assert (Hrest : 0 <= col - n * p < p).
    { pose proof (Z.div_mod col p ltac:(lia)) as Hdm.
      pose proof (Z.mod_pos_bound col p Hpos) as Hmod.
      fold n in Hdm. lia. }
    rewrite (chr_letter n Hn). cbn [bind].
    destruct (IH (col - n * p) (xl_col ++ String (letter n) EmptyString) Hrest)
      as (s & Hlen & Hs).
    exists (String (letter n) s).
    split; [simpl; rewrite Hlen; reflexivity|].
    rewrite Hs, append_assoc. reflexivity.
Qed.

(** On a table of [R >= 1] rows of [C] cells each, with more fuel than
    columns, [get_range_of_data] returns "A1:", some letters, and [R]. *)
Lemma get_range_of_data_rectangular (fuel : nat) (r : list scalar)
  (rs : list (list scalar)) :
  (forall r', In r' rs -> length r' = length r) ->
  (length r < fuel)%nat ->
  exists xl_col,
    get_range_of_data fuel (PList (r :: rs))
    = Some (Ok ("A1:" ++ xl_col ++ str_of_int (Z.of_nat (length (r :: rs))))).
Proof.
  intros Hall Hfuel. unfold get_range_of_data.
  rewrite (np_shape_rectangular r rs Hall).
  cbn [is_none tuple_get nth_error except_IndexError].
  change 26 with (26 ^ Z.of_nat 1) at 1.
  destruct (count_digits_enough fuel (Z.of_nat (length r)) 1)
    as (m & -> & Hm & _).
  { change (26 ^ Z.of_nat 1) with 26. lia. }
  destruct (column_letters_ok m (Z.of_nat (length r)) EmptyString) as (s & _ & ->).
  { lia. }
  exists s. reflexivity.
Qed.

(** ** Where the letters are those of the specification *)

(** The loop over [i + 1] digits prints the digits of [col / 26], then the
    last digit of [col]. *)
Lemma column_letters_last (i : nat) (col : Z) (xl_col : string) :
  0 <= col < 26 ^ Z.of_nat (S i) ->
  column_letters (S i) col xl_col
  = (s <- column_letters i (col / 26) xl_col ;;
     Ok (s ++ String (letter (col mod 26)) EmptyString)).
Proof.
  revert col xl_col. induction i as [|i IH]; intros col xl_col Hcol.
  - change (26 ^ Z.of_nat 1) with 26 in Hcol.
    rewrite column_letters_S. change (26 ^ Z.of_nat 0) with 1.
    rewrite Z.div_1_r, (chr_letter col Hcol). cbn [bind column_letters].
    rewrite (Z.mod_small col 26 Hcol). reflexivity.
  - pose proof (pow26_pos i) as Hq. pose proof (pow26_pos (S i)) as Hp.
    pose proof (pow26_S i) as Hpq. rewrite (pow26_S (S i)) in Hcol.
    rewrite (column_letters_S (S i)), (column_letters_S i).
    set (p := 26 ^ Z.of_nat (S i)) in *. set (q := 26 ^ Z.of_nat i) in *.
    set (n := col / p).
    assert (Hn : 0 <= n < 26).
    { unfold n. split; [apply Z.div_pos; lia|].
      apply Z.div_lt_upper_bound; lia. }
    assert (Hn2 : col / 26 / q = n).
    { unfold n. rewrite Z.div_div by lia. f_equal. lia. }
    assert (Hrest : 0 <= col - n * p < p).
    { pose proof (Z.div_mod col p ltac:(lia)) as Hdm.
      pose proof (Z.mod_pos_bound col p Hp) as Hmod.
      fold n in Hdm. lia. }
    assert (Hshift : col - n * p = col + - (n * q) * 26) by lia.
    rewrite Hn2, (chr_letter n Hn). cbn [bind].
    rewrite (IH (col - n * p)) by exact Hrest.
    rewrite Hshift, Z.div_add, Z.mod_add by lia.
    replace (col / 26 + - (n * q)) with (col / 26 - n * q) by lia.
    reflexivity.
Qed.

(** The bijective numeral of a count whose last ordinary digit is not
    zero: the numeral of [c / 26], then the letter of that digit. *)
Lemma bijective26_last (fuel : nat) (c : Z) :
  0 < c -> c mod 26 <> 0 ->
  bijective26 (S fuel) c
  = bijective26 fuel (c / 26) ++ String (letter (c mod 26)) EmptyString.
Proof.
  intros Hc Hd. cbn [bijective26].
  replace (c <=? 0) with false by (symmetry; apply Z.leb_gt; exact Hc).
  pose proof (Z.div_mod c 26 ltac:(lia)) as Hdm.
  pose proof (Z.mod_pos_bound c 26 ltac:(lia)) as Hmod.
  assert (Hq : (c - 1) / 26 = c / 26).
  { symmetry. apply (Z.div_unique (c - 1) 26 (c / 26) (c mod 26 - 1)); lia. }
  assert (Hr : (c - 1) mod 26 = c mod 26 - 1).
  { symmetry. apply (Z.mod_unique (c - 1) 26 (c / 26) (c mod 26 - 1)); lia. }
  rewrite Hq, Hr. replace (c mod 26 - 1 + 1) with (c mod 26) by lia.
  reflexivity.
Qed.

(** On [i] digits none of which is zero, the [for] loop prints the
    bijective numeral. *)
Lemma column_letters_bijective (i fuel : nat) (col : Z) (xl_col : string) :
  0 <= col < 26 ^ Z.of_nat i ->
  (forall j, (j < i)%nat -> (col / 26 ^ Z.of_nat j) mod 26 <> 0) ->
  (i <= fuel)%nat ->
  column_letters i col xl_col = Ok (xl_col ++ bijective26 fuel col).
Proof.
  revert fuel col xl_col.
  induction i as [|i IH]; intros fuel col xl_col Hcol Hdigits Hfuel.
  - change (26 ^ Z.of_nat 0) with 1 in Hcol.
    assert (col = 0) as -> by lia.
    destruct fuel; simpl; rewrite append_nil_r; reflexivity.
  - destruct fuel as [|fuel]; [lia|].
    pose proof (pow26_pos i) as Hq. pose proof Hcol as Hcol'.
    rewrite pow26_S in Hcol'.
    assert (Hd0 : col mod 26 <> 0).
    { specialize (Hdigits 0%nat ltac:(lia)).
      change (26 ^ Z.of_nat 0) with 1 in Hdigits.
      rewrite Z.div_1_r in Hdigits. exact Hdigits. }
    assert (Hcol0 : 0 < col).
    { destruct (Z.eq_dec col 0) as [-> | Hne]; [|lia].
      exfalso. apply Hd0. reflexivity. }
    rewrite (column_letters_last i col xl_col Hcol).
    rewrite (IH fuel (col / 26) xl_col).
    + cbn [bind]. rewrite append_assoc, <- bijective26_last by assumption.
      reflexivity.
    + split; [apply Z.div_pos; lia|]. apply Z.div_lt_upper_bound; lia.
    + intros j Hj. specialize (Hdigits (S j) ltac:(lia)).
      rewrite pow26_S in Hdigits.
      rewrite Z.div_div by (pose proof (pow26_pos j); lia).
      replace (26 * 26 ^ Z.of_nat j) with (26 ^ Z.of_nat j * 26) by lia.
      exact Hdigits.
    + lia.
Qed.

Lemma digits_le_pow26 (i : nat) : Z.of_nat (S i) <= 26 ^ Z.of_nat i.
Proof.
  induction i as [|i IH]; [simpl; lia|].
  rewrite pow26_S. lia.
Qed.

(** X2: where the address is the specified one: on a table of [R >= 1]
    rows of [C >= 1] cells each, where no digit of [C] in ordinary base 26
    is zero, [get_range_of_data] returns "A1:" + letters(C) + str(R). *)
Lemma get_range_of_data_letters (fuel : nat) (r : list scalar)
  (rs : list (list scalar)) :
  (forall r', In r' rs -> length r' = length r) ->
  (length r < fuel)%nat ->
  (1 <= length r)%nat ->
  no_zero_digit (Z.of_nat (length r)) ->
  get_range_of_data fuel (PList (r :: rs))
  = Some (Ok ("A1:" ++ letters (Z.of_nat (length r))
                ++ str_of_int (Z.of_nat (length (r :: rs))))).
Proof.
  intros Hall Hfuel Hcols Hdigits. unfold get_range_of_data.
  rewrite (np_shape_rectangular r rs Hall).
  cbn [is_none tuple_get nth_error except_IndexError].
  set (col := Z.of_nat (length r)) in *.
  change 26 with (26 ^ Z.of_nat 1) at 1.
  destruct (count_digits_enough fuel col 1) as (m & -> & Hm & Hle & Hlow).
  { change (26 ^ Z.of_nat 1) with 26. lia. }
  assert (Hpred : 26 ^ Z.of_nat (Nat.pred m) <= col).
  { destruct (Nat.eq_dec m 1) as [-> | Hne].
    - change (26 ^ Z.of_nat (Nat.pred 1)) with 1. lia.
    - apply Hlow. lia. }
  rewrite (column_letters_bijective m (Z.to_nat col) col EmptyString).
  - reflexivity.
  - lia.
  - intros j Hj. apply Hdigits.
    apply Z.le_trans with (2 := Hpred).
    apply Z.pow_le_mono_r; lia.
  - pose proof (digits_le_pow26 (Nat.pred m)) as Hsize.
    replace (S (Nat.pred m)) with m in Hsize by lia. lia.
Qed.

Example no_zero_digit_27 : no_zero_digit 27.
Proof.
  intros [|[|j]] Hj.
  - vm_compute. discriminate.
  - vm_compute. discriminate.
  - exfalso. rewrite !pow26_S in Hj. pose proof (pow26_pos j). lia.
Qed.

Example get_range_of_data_letters_27 :
  get_range_of_data 28 (PList [cells 27; cells 27])
  = Some (Ok ("A1:" ++ letters 27 ++ str_of_int 2)).
Proof.
  apply (get_range_of_data_letters 28 (cells 27) [cells 27]).
  - intros r' [<- | []]. reflexivity.
  - vm_compute. lia.
  - vm_compute. lia.
  - exact no_zero_digit_27.
Defined.

(** ** The validation loops *)

(** A builder whose string check fails on the dict [d] raises that
    [TypeError]: [lem] is the lemma that says the check fails, its
    hypothesis the one in the context. *)
Ltac reject_by lem d :=
  match goal with
  | H : forallb is_str _ = false |- raises_TypeError _ _ =>
      let k := fresh "k" in
      let Hk := fresh "Hk" in
      let Hr := fresh "Hr" in
      destruct (lem d H) as (k & Hk & Hr);
      exists k; split; [exact Hk|];
      unfold update_range, get_range, insert_empty_cells, clear_range,
        delete_range, get_rangeFormat;
      rewrite Hr; reflexivity
  end.

Lemma bind_Ok {A B : Type} (r : result A) (k : A -> result B) (b : B) :
  bind r k = Ok b -> exists a, r = Ok a /\ k a = Ok b.
Proof. destruct r as [a|e]; simpl; [eauto | discriminate]. Qed.

Lemma bind_Raise {A B : Type} (r : result A) (k : A -> result B) (e : exn) :
  bind r k = Raise e ->
  r = Raise e \/ exists a, r = Ok a /\ k a = Raise e.
Proof.
  destruct r as [a|e']; simpl; intros H; [right; eauto | left; congruence].
Qed.

(** [check_str] passes when every value is a [str], and otherwise raises
    the [TypeError] of one of the values that is not. *)
Lemma check_str_spec (kvs : list (string * pyval)) :
  (Forall (fun kv => is_str (snd kv) = true) kvs /\ check_str kvs = Ok tt)
  \/ (exists k v, In (k, v) kvs /\ is_str v = false
        /\ check_str kvs = Raise (TypeError (msg_invalid_type k))).
Proof.
  induction kvs as [|[k v] rest IH]; simpl.
  - left. split; [constructor | reflexivity].
  - destruct (is_str v) eqn:Hv.
    + destruct IH as [[Hall Hok] | (k' & v' & Hin & Hv' & Hr)].
      * left. split; [constructor; assumption | assumption].
      * right. exists k', v'. auto.
    + right. exists k, v. auto.
Qed.

(** [check_lists] passes, or raises for a value of a wrong type, or raises
    for a list of a different shape: in each case for a pair it met. *)
Lemma check_lists_spec (size : list Z) (kvs : list (string * pyval)) :
  (Forall (fun kv => list_field_ok size (snd kv)) kvs
     /\ check_lists size kvs = Ok tt)
  \/ (exists k v, In (k, v) kvs /\ is_none v = false /\ is_list v = false
        /\ check_lists size kvs = Raise (TypeError (msg_invalid_type k)))
  \/ (exists k v, In (k, v) kvs /\ is_list v = true /\ np_shape v <> size
        /\ check_lists size kvs = Raise (ValueError (msg_shape k))).
Proof.
  induction kvs as [|[k v] rest IH]; simpl.
  - left. split; [constructor | reflexivity].
  - assert (Hrest :
      list_field_ok size v ->
      (Forall (fun kv => list_field_ok size (snd kv)) ((k, v) :: rest)
         /\ check_lists size rest = Ok tt)
      \/ (exists k' v', ((k, v) = (k', v') \/ In (k', v') rest)
            /\ is_none v' = false /\ is_list v' = false
            /\ check_lists size rest = Raise (TypeError (msg_invalid_type k')))
      \/ (exists k' v', ((k, v) = (k', v') \/ In (k', v') rest)
            /\ is_list v' = true /\ np_shape v' <> size
            /\ check_lists size rest = Raise (ValueError (msg_shape k')))).
    { intros Hv.
      destruct IH as [[Hall Hok] | [(k' & v' & Hin & H1 & H2 & Hr)
                                   | (k' & v' & Hin & H1 & H2 & Hr)]].
      - left. split; [constructor; assumption | assumption].
      - right. left. exists k', v'. auto.
      - right. right. exists k', v'. auto. }
    destruct (is_none v) eqn:Hnone.
    + apply Hrest. left. destruct v; try discriminate. reflexivity.
    + destruct (is_list v) eqn:Hlist.
      * destruct (list_eq_dec Z.eq_dec (np_shape v) size) as [Heq | Hne].
        -- apply Hrest. right. auto.
        -- right. right. exists k, v. auto.
      * right. left. exists k, v. auto.
Qed.

(** [check_bools] passes when every value is unset or a [bool], and
    otherwise raises the [TypeError] of one that is neither. *)
Lemma check_bools_spec (kvs : list (string * pyval)) :
  (Forall (fun kv => is_none (snd kv) = true \/ is_bool (snd kv) = true) kvs
     /\ check_bools kvs = Ok tt)
  \/ (exists k v, In (k, v) kvs /\ is_none v = false /\ is_bool v = false
        /\ check_bools kvs = Raise (TypeError (msg_invalid_type k))).
Proof.
  induction kvs as [|[k v] rest IH]; simpl.
  - left. split; [constructor | reflexivity].
  - destruct (is_none v) eqn:Hnone; simpl.
    + destruct IH as [[Hall Hok] | (k' & v' & Hin & H1 & H2 & Hr)].
      * left. split; [constructor; simpl; auto | assumption].
      * right. exists k', v'. auto.
    + destruct (is_bool v) eqn:Hbool; simpl.
      * destruct IH as [[Hall Hok] | (k' & v' & Hin & H1 & H2 & Hr)].
        -- left. split; [constructor; simpl; auto | assumption].
        -- right. exists k', v'. auto.
      * right. exists k, v. auto.
Qed.

(** ** Deleting the unset fields *)

Lemma filter_twice {A : Type} (f g : A -> bool) (l : list A) :
  filter f (filter g l) = filter (fun a => g a && f a) l.
Proof.
  induction l as [|a l IH]; simpl; [reflexivity|].
  destruct (g a); simpl; [destruct (f a)|]; rewrite IH; reflexivity.
Qed.

Lemma has_key_In (k : string) (d : dict) :
  has_key k d = true <-> In k (keys d).
Proof.
  unfold has_key, keys. rewrite existsb_exists, in_map_iff.
  split; intros (kv & H1 & H2).
  - exists kv. split; [apply String.eqb_eq; assumption | assumption].
  - exists kv. split; [assumption | apply String.eqb_eq; assumption].
Qed.

Lemma has_key_other (k k' : string) (d : dict) :
  k' <> k ->
  has_key k' (filter (fun kv => negb (String.eqb (fst kv) k)) d) = has_key k' d.
Proof.
  intros Hne. unfold has_key.
  induction d as [|[k0 v0] d IH]; simpl; [reflexivity|].
  destruct (String.eqb_spec k0 k) as [-> | Hk0]; simpl.
  - rewrite IH. destruct (String.eqb_spec k k'); [congruence | reflexivity].
  - rewrite IH. reflexivity.
Qed.

(** In a dict, a key has one value. *)
Lemma dict_functional (d : dict) (k : string) (v v' : pyval) :
  NoDup (keys d) -> In (k, v) d -> In (k, v') d -> v = v'.
Proof.
  unfold keys. induction d as [|[k0 v0] d IH]; simpl; [contradiction|].
  intros Hnd [H1 | H1] [H2 | H2]; apply NoDup_cons_iff in Hnd as [Hnotin Hnd].
  - congruence.
  - exfalso. apply Hnotin. injection H1 as -> _.
    apply (in_map fst) in H2. exact H2.
  - exfalso. apply Hnotin. injection H2 as -> _.
    apply (in_map fst) in H1. exact H1.
  - apply IH; assumption.
Qed.

(** The loop that deletes the unset fields never raises [KeyError] when
    it walks distinct keys of the dict, and keeps the pairs whose key it
    did not meet with [None]. *)
Lemma drop_unset_filter (kvs : list (string * pyval)) (body : dict) :
  NoDup (map fst kvs) ->
  (forall k v, In (k, v) kvs -> has_key k body = true) ->
  drop_unset kvs body
  = Ok (filter (fun kv => negb (unset_in kvs (fst kv))) body).
Proof.
  revert body. induction kvs as [|[k v] rest IH]; intros body Hnd Hkeys.
  - simpl. rewrite filter_true. reflexivity.
  - simpl in Hnd. apply NoDup_cons_iff in Hnd as [Hnotin Hnd]. simpl.
    destruct (is_none v) eqn:Hv.
    + unfold dict_del. rewrite (Hkeys k v (or_introl eq_refl)). simpl.
      rewrite IH; [| exact Hnd |].
      * rewrite filter_twice. f_equal. apply filter_ext. intros [k0 v0].
        unfold unset_in. cbn [existsb fst snd]. rewrite andb_true_r, negb_orb.
        rewrite (String.eqb_sym k0 k). reflexivity.
      * intros k' v' Hin. rewrite has_key_other.
        -- apply (Hkeys k' v'). right. exact Hin.
        -- intros ->. apply Hnotin. apply (in_map fst) in Hin. exact Hin.
    + rewrite IH; [| exact Hnd |].
      * f_equal. apply filter_ext. intros [k0 v0].
        unfold unset_in. cbn [existsb fst snd]. rewrite andb_false_r. reflexivity.
      * intros k' v' Hin. apply (Hkeys k' v'). right. exact Hin.
Qed.

(** Over the pairs of the dict itself, in any order, the loop keeps the
    pairs whose value is not [None]. *)
Lemma drop_unset_items (kvs : list (string * pyval)) (body : dict) :
  Permutation kvs body -> NoDup (keys body) ->
  drop_unset kvs body = Ok (filter (fun kv => negb (is_none (snd kv))) body).
Proof.
  intros Hperm Hnd. rewrite drop_unset_filter.
  - f_equal. apply filter_ext_in. intros [k v] Hin. f_equal. simpl.
    unfold unset_in. destruct (is_none v) eqn:Hv.
    + apply existsb_exists. exists (k, v). simpl.
      rewrite String.eqb_refl, Hv. split; [|reflexivity].
      apply (Permutation_in _ (Permutation_sym Hperm)). exact Hin.
    + destruct (existsb _ kvs) eqn:Hex; [|reflexivity].
      apply existsb_exists in Hex as ([k' v'] & Hin' & Hb). simpl in Hb.
      apply andb_prop in Hb as [Hk Hv']. apply String.eqb_eq in Hk. subst k'.
      apply (Permutation_in _ Hperm) in Hin'.
      rewrite (dict_functional body k v v' Hnd Hin Hin') in Hv. congruence.
  - apply (Permutation_NoDup (Permutation_map fst (Permutation_sym Hperm))).
    exact Hnd.
  - intros k v Hin. apply has_key_In. unfold keys.
    apply (in_map fst) in Hin. simpl in Hin.
    apply (Permutation_in _ (Permutation_map fst Hperm)). exact Hin.
Qed.

(** ** Strings *)

(** Every path is the path with no suffix, followed by the suffix. *)
Lemma range_endpoint_suffix (f s r suffix : string) :
  range_endpoint f s r suffix = range_endpoint f s r EmptyString ++ suffix.
Proof. unfold range_endpoint. rewrite !append_assoc. reflexivity. Qed.

(** ** Shapes and row lengths *)





(** ** The builders *)

Section BuilderProperties.

Variable items : dict -> list (string * pyval).
Hypothesis items_perm : forall d : dict, Permutation (items d) d.

Lemma check_str_items_true (d : dict) :
  forallb (fun kv => is_str (snd kv)) d = true ->
  check_str (items d) = Ok tt.
Proof.
  intros Hall. rewrite forallb_forall in Hall.
  destruct (check_str_spec (items d)) as [[_ Hok] | (k & v & Hin & Hv & _)];
    [exact Hok|].
  apply (Permutation_in _ (items_perm d)) in Hin.
  apply Hall in Hin. simpl in Hin. congruence.
Qed.

Lemma check_str_items_false (d : dict) :
  forallb (fun kv => is_str (snd kv)) d = false ->
  raises_TypeError (check_str (items d)) (keys d).
Proof.
  intros Hsome.
  destruct (check_str_spec (items d)) as [[Hall _] | (k & v & Hin & Hv & Hr)].
  - apply (Permutation_Forall (items_perm d)) in Hall.
    rewrite Forall_forall in Hall.
    assert (Htrue : forallb (fun kv => is_str (snd kv)) d = true)
      by (apply forallb_forall; exact Hall).
    congruence.
  - exists k. split; [|exact Hr].
    apply (Permutation_in _ (items_perm d)) in Hin.
    apply (in_map fst) in Hin. exact Hin.
Qed.

(** The builders format their path only from [str] arguments: a call
    that returns had a [str] file id, sheet name and range. *)
Lemma check_str_items_Ok (d : dict) :
  check_str (items d) = Ok tt -> forallb (fun kv => is_str (snd kv)) d = true.
Proof.
  intros Hok.
  destruct (forallb (fun kv => is_str (snd kv)) d) eqn:Hall; [reflexivity|].
  destruct (check_str_items_false d Hall) as (k & _ & Hr). congruence.
Qed.

Lemma update_range_str
  (file_id sheetname range data format columnHidden formulas formulasLocal
     formulasR1C1 rowHidden : pyval) (d : descriptor) :
  update_range items file_id sheetname range data format columnHidden formulas
    formulasLocal formulasR1C1 rowHidden = Ok d ->
  forallb is_str [file_id; sheetname; range] = true.
Proof.
  unfold update_range. intros H. apply bind_Ok in H as ([] & Hstr & _).
  exact (check_str_items_Ok _ Hstr).
Qed.

Lemma check_lists_items (size : list Z) (d : dict) :
  ((forall k v, In (k, v) d -> list_field_ok size v)
     /\ check_lists size (items d) = Ok tt)
  \/ (exists k v, In (k, v) d /\ is_none v = false /\ is_list v = false
        /\ check_lists size (items d) = Raise (TypeError (msg_invalid_type k)))
  \/ (exists k v, In (k, v) d /\ is_list v = true /\ np_shape v <> size
        /\ check_lists size (items d) = Raise (ValueError (msg_shape k))).
Proof.
  destruct (check_lists_spec size (items d))
    as [[Hall Hok] | [(k & v & Hin & H1 & H2 & Hr) | (k & v & Hin & H1 & H2 & Hr)]].
  - left. split; [|exact Hok].
    apply (Permutation_Forall (items_perm d)) in Hall.
    rewrite Forall_forall in Hall. intros k v Hin. apply (Hall (k, v) Hin).
  - right. left. exists k, v.
    apply (Permutation_in _ (items_perm d)) in Hin. auto.
  - right. right. exists k, v.
    apply (Permutation_in _ (items_perm d)) in Hin. auto.
Qed.

Lemma check_bools_items (d : dict) :
  ((forall k v, In (k, v) d -> not_bool v = false)
     /\ check_bools (items d) = Ok tt)
  \/ (exists k v, In (k, v) d /\ not_bool v = true
        /\ check_bools (items d) = Raise (TypeError (msg_invalid_type k))).
Proof.
  unfold not_bool.
  destruct (check_bools_spec (items d)) as [[Hall Hok] | (k & v & Hin & H1 & H2 & Hr)].
  - left. split; [|exact Hok].
    apply (Permutation_Forall (items_perm d)) in Hall.
    rewrite Forall_forall in Hall. intros k v Hin.
    destruct (Hall (k, v) Hin) as [H | H]; simpl in H; rewrite H.
    + reflexivity.
    + apply andb_false_r.
  - right. exists k, v.
    apply (Permutation_in _ (items_perm d)) in Hin.
    rewrite H1, H2. auto.
Qed.

Lemma full_body_keys
  (data format columnHidden formulas formulasLocal formulasR1C1 rowHidden : pyval) :
  NoDup (keys (full_body data format columnHidden formulas formulasLocal
                 formulasR1C1 rowHidden)).
Proof.
  unfold keys, full_body. simpl.
  repeat (apply NoDup_cons; [simpl; intuition discriminate|]).
  apply NoDup_nil.
Qed.

(** [update_range], with its loops read off: the three checks in turn,
    then the body without its unset fields. *)
Lemma update_range_stages
  (file_id sheetname range data format columnHidden formulas formulasLocal
     formulasR1C1 rowHidden : pyval) :
  update_range items file_id sheetname range data format columnHidden formulas
    formulasLocal formulasR1C1 rowHidden
  = (_ <- check_str (items [("file_id", file_id); ("sheetname", sheetname);
                            ("range", range)]) ;;
     if is_none data then Raise (ValueError msg_invalid_data) else
     _ <- check_lists (np_shape data)
            (items (("data", data)
                      :: list_fields format formulas formulasLocal formulasR1C1)) ;;
     _ <- check_bools (items [("columnHidden", columnHidden);
                              ("rowHidden", rowHidden)]) ;;
     Ok (Descriptor
           (range_endpoint (str_val file_id) (str_val sheetname) (str_val range)
              EmptyString)
           "patch"
           (Some (filter (fun kv => negb (is_none (snd kv)))
                    (full_body data format columnHidden formulas formulasLocal
                       formulasR1C1 rowHidden))))).
Proof.
  unfold update_range.
  fold (full_body data format columnHidden formulas formulasLocal formulasR1C1
          rowHidden).
  rewrite (drop_unset_items _ _ (items_perm _) (full_body_keys _ _ _ _ _ _ _)).
  reflexivity.
Qed.

(** C8: for string arguments, [get_range] and [get_rangeFormat] return the
    verb "get" and the body [None]; the path of [get_range] is the shared
    pattern with no suffix, that of [get_rangeFormat] the same path
    followed by "/format". *)
Theorem get_builders (f s r : string) :
  get_range items (PStr f) (PStr s) (PStr r)
  = Ok (Descriptor (range_endpoint f s r EmptyString) "get" None)
  /\ get_rangeFormat items (PStr f) (PStr s) (PStr r)
     = Ok (Descriptor (range_endpoint f s r EmptyString ++ "/format") "get" None).
Proof.
  split.
  - unfold get_range. rewrite check_str_items_true by reflexivity.
    reflexivity.
  - unfold get_rangeFormat. rewrite check_str_items_true by reflexivity.
    rewrite <- range_endpoint_suffix. reflexivity.
Qed.

(** C7: for string arguments and the mode left out, [insert_empty_cells]
    returns the shared path followed by "/insert", the verb "post" and the
    body [{"shift": "Down"}]; [clear_range] the path followed by "/clear",
    "post" and [{"applyTo": "All"}]; [delete_range] the path followed by
    "/delete", "post" and [{"shift": "Up"}], which for "X", "Sheet1",
    "A1:B3" is the descriptor the specification writes out. *)
Theorem post_builders (f s r : string) :
  insert_empty_cells items (PStr f) (PStr s) (PStr r) None
  = Ok (Descriptor (range_endpoint f s r EmptyString ++ "/insert") "post"
          (Some [("shift", PStr "Down")]))
  /\ clear_range items (PStr f) (PStr s) (PStr r) None
     = Ok (Descriptor (range_endpoint f s r EmptyString ++ "/clear") "post"
             (Some [("applyTo", PStr "All")]))
  /\ delete_range items (PStr f) (PStr s) (PStr r) None
     = Ok (Descriptor (range_endpoint f s r EmptyString ++ "/delete") "post"
             (Some [("shift", PStr "Up")]))
  /\ delete_range items (PStr "X") (PStr "Sheet1") (PStr "A1:B3") None
     = Ok (Descriptor
             "/me/drive/items/X/workbook/worksheets/Sheet1/range(address='A1:B3')/delete"
             "post" (Some [("shift", PStr "Up")])).
Proof.
  repeat split.
  - unfold insert_empty_cells. rewrite check_str_items_true by reflexivity.
    rewrite <- range_endpoint_suffix. reflexivity.
  - unfold clear_range. rewrite check_str_items_true by reflexivity.
    rewrite <- range_endpoint_suffix. reflexivity.
  - unfold delete_range. rewrite check_str_items_true by reflexivity.
    rewrite <- range_endpoint_suffix. reflexivity.
  - unfold delete_range. rewrite check_str_items_true by reflexivity.
    reflexivity.
Qed.


(** C5, as amended: each of the six builders raises [TypeError]
    (TypeMismatch) as soon as one of its string arguments, the mode given
    to [insert_empty_cells], [clear_range] or [delete_range] included, is
    not a [str], whatever the other arguments; and [update_range] called
    with a string file id, sheet name and range and with [data] equal to
    [None] raises [ValueError("Invalid data")] (InvalidArgument). *)
Theorem builders_require_str :
  (forall file_id sheetname range data format columnHidden formulas
          formulasLocal formulasR1C1 rowHidden,
      forallb is_str [file_id; sheetname; range] = false ->
      raises_TypeError
        (update_range items file_id sheetname range data format columnHidden
           formulas formulasLocal formulasR1C1 rowHidden)
        ["file_id"; "sheetname"; "range"])
  /\ (forall file_id sheetname range,
        forallb is_str [file_id; sheetname; range] = false ->
        raises_TypeError (get_range items file_id sheetname range)
          ["file_id"; "sheetname"; "range"])
  /\ (forall file_id sheetname range shift,
        forallb is_str [file_id; sheetname; range; keyword "Down" shift] = false ->
        raises_TypeError (insert_empty_cells items file_id sheetname range shift)
          ["file_id"; "sheetname"; "range"; "shift"])
  /\ (forall file_id sheetname range applyTo,
        forallb is_str [file_id; sheetname; range; keyword "All" applyTo] = false ->
        raises_TypeError (clear_range items file_id sheetname range applyTo)
          ["file_id"; "sheetname"; "range"; "applyTo"])
  /\ (forall file_id sheetname range shift,
        forallb is_str [file_id; sheetname; range; keyword "Up" shift] = false ->
        raises_TypeError (delete_range items file_id sheetname range shift)
          ["file_id"; "sheetname"; "range"; "shift"])
  /\ (forall file_id sheetname range,
        forallb is_str [file_id; sheetname; range] = false ->
        raises_TypeError (get_rangeFormat items file_id sheetname range)
          ["file_id"; "sheetname"; "range"])
  /\ (forall f s r format columnHidden formulas formulasLocal formulasR1C1
             rowHidden,
        update_range items (PStr f) (PStr s) (PStr r) PNone format columnHidden
          formulas formulasLocal formulasR1C1 rowHidden
        = Raise (ValueError msg_invalid_data)).
Proof.
  repeat split; intros.
  - reject_by check_str_items_false
      [("file_id", file_id); ("sheetname", sheetname); ("range", range)].
  - reject_by check_str_items_false
      [("file_id", file_id); ("sheetname", sheetname); ("range", range)].
  - reject_by check_str_items_false
      [("file_id", file_id); ("sheetname", sheetname); ("range", range);
       ("shift", keyword "Down" shift)].
  - reject_by check_str_items_false
      [("file_id", file_id); ("sheetname", sheetname); ("range", range);
       ("applyTo", keyword "All" applyTo)].
  - reject_by check_str_items_false
      [("file_id", file_id); ("sheetname", sheetname); ("range", range);
       ("shift", keyword "Up" shift)].
  - reject_by check_str_items_false
      [("file_id", file_id); ("sheetname", sheetname); ("range", range)].
  - unfold update_range. rewrite check_str_items_true by reflexivity.
    reflexivity.
Qed.

(** C6, as amended: when [data] is not [None] and no list-typed field is a
    list of a shape other than that of [data], a [columnHidden] or
    [rowHidden] that is provided and is not a [bool] makes [update_range]
    raise [TypeError] (TypeMismatch). *)
Theorem update_range_not_bool
  (file_id sheetname range data format columnHidden formulas formulasLocal
     formulasR1C1 rowHidden : pyval) :
  is_none data = false ->
  (forall k v,
      In (k, v) (list_fields format formulas formulasLocal formulasR1C1) ->
      is_list v = true -> np_shape v = np_shape data) ->
  not_bool columnHidden || not_bool rowHidden = true ->
  raises_TypeError
    (update_range items file_id sheetname range data format columnHidden
       formulas formulasLocal formulasR1C1 rowHidden)
    ["file_id"; "sheetname"; "range"; "data"; "format"; "formulas";
     "formulasLocal"; "formulasR1C1"; "columnHidden"; "rowHidden"].
Proof.
  intros Hdata Hshapes Hbad. rewrite update_range_stages.
  destruct (forallb (fun kv => is_str (snd kv))
              [("file_id", file_id); ("sheetname", sheetname); ("range", range)])
    eqn:Hstr.
  2:{ destruct (check_str_items_false _ Hstr) as (k & Hk & ->).
      exists k. split; [|reflexivity]. simpl in Hk. simpl. tauto. }
  rewrite (check_str_items_true _ Hstr). cbn [bind]. rewrite Hdata.
  destruct (check_lists_items (np_shape data)
              (("data", data) :: list_fields format formulas formulasLocal formulasR1C1))
    as [[_ ->] | [(k & v & Hin & _ & _ & ->) | (k & v & Hin & Hl & Hne & _)]].
  - cbn [bind].
    destruct (check_bools_items [("columnHidden", columnHidden); ("rowHidden", rowHidden)])
      as [[Hall _] | (k & v & Hin & _ & ->)].
    + exfalso.
      rewrite (Hall "columnHidden" columnHidden) in Hbad by (simpl; auto).
      rewrite (Hall "rowHidden" rowHidden) in Hbad by (simpl; auto).
      discriminate Hbad.
    + exists k. split; [|reflexivity].
      apply (in_map fst) in Hin. simpl in Hin. simpl. tauto.
  - exists k. split; [|reflexivity].
    apply (in_map fst) in Hin. simpl in Hin. simpl. tauto.
  - exfalso. destruct Hin as [Heq | Hin].
    + injection Heq as _ <-. apply Hne. reflexivity.
    + apply Hne. apply (Hshapes k v Hin Hl).
Qed.



(** C4: when [update_range] returns, the body of the descriptor is the
    full body without the pairs whose value is [None]: it holds the
    arguments that were provided, under their body keys, and no other;
    [data] under "values" always, and nothing else when the six optional
    arguments are unset. *)
Theorem update_range_body
  (file_id sheetname range data format columnHidden formulas formulasLocal
     formulasR1C1 rowHidden : pyval) (d : descriptor) :
  update_range items file_id sheetname range data format columnHidden formulas
    formulasLocal formulasR1C1 rowHidden = Ok d ->
  exists body,
    request_body d = Some body
    /\ body = filter (fun kv => negb (is_none (snd kv)))
                (full_body data format columnHidden formulas formulasLocal
                   formulasR1C1 rowHidden)
    /\ (forall k v,
          In (k, v) body <->
          In (k, v) (full_body data format columnHidden formulas formulasLocal
                       formulasR1C1 rowHidden) /\ v <> PNone)
    /\ In ("values", data) body
    /\ (format = PNone -> columnHidden = PNone -> formulas = PNone ->
        formulasLocal = PNone -> formulasR1C1 = PNone -> rowHidden = PNone ->
        body = [("values", data)]).
Proof.
  rewrite update_range_stages. intros H.
  apply bind_Ok in H as (_ & _ & H).
  destruct (is_none data) eqn:Hdata; [discriminate H|].
  apply bind_Ok in H as (_ & _ & H). apply bind_Ok in H as (_ & _ & H).
  exists (filter (fun kv => negb (is_none (snd kv)))
            (full_body data format columnHidden formulas formulasLocal
               formulasR1C1 rowHidden)).
  split; [injection H as <-; reflexivity|]. clear H.
  split; [reflexivity|]. split; [|split].
  - intros k v. rewrite filter_In. simpl snd.
    split; intros [Hin Hv]; (split; [exact Hin|]).
    + intros ->. discriminate Hv.
    + destruct v; [contradiction | reflexivity ..].
  - apply filter_In. split; [left; reflexivity|].
    simpl snd. rewrite Hdata. reflexivity.
  - intros -> -> -> -> -> ->. unfold full_body. cbn [filter snd].
    rewrite Hdata. reflexivity.
Qed.

(** C9: [update_range] does not look at the rows of [data]: with string
    arguments and the optional fields unset it returns its descriptor for
    every list [data], ragged ones included; and it raises a [ValueError]
    only for a [data] that is [None], or for a list-typed optional field
    that is a list of a shape other than that of [data]. *)
Theorem update_range_data_unchecked :
  (forall (f s r : string) (rows : list (list scalar)),
      update_range items (PStr f) (PStr s) (PStr r) (PList rows)
        PNone PNone PNone PNone PNone PNone
      = Ok (Descriptor (range_endpoint f s r EmptyString) "patch"
              (Some [("values", PList rows)])))
  /\ (forall file_id sheetname range data format columnHidden formulas
             formulasLocal formulasR1C1 rowHidden msg,
        update_range items file_id sheetname range data format columnHidden
          formulas formulasLocal formulasR1C1 rowHidden
        = Raise (ValueError msg) ->
        (data = PNone /\ msg = msg_invalid_data)
        \/ (exists k v,
              In (k, v) (list_fields format formulas formulasLocal formulasR1C1)
              /\ is_list v = true /\ np_shape v <> np_shape data
              /\ msg = msg_shape k)).
Proof.
  split.
  - intros f s r rows. rewrite update_range_stages.
    rewrite check_str_items_true by reflexivity. cbn [bind is_none].
    destruct (check_lists_items (np_shape (PList rows))
                (("data", PList rows) :: list_fields PNone PNone PNone PNone))
      as [[_ ->] | [(k & v & Hin & Hn & Hl & _) | (k & v & Hin & Hl & Hne & _)]].
    + cbn [bind].
      destruct (check_bools_items [("columnHidden", PNone); ("rowHidden", PNone)])
        as [[_ ->] | (k & v & Hin & Hb & _)].
      * reflexivity.
      * exfalso. simpl in Hin.
        destruct Hin as [Heq | [Heq | []]]; injection Heq as _ <-;
          discriminate Hb.
    + exfalso. simpl in Hin.
      destruct Hin as [Heq | [Heq | [Heq | [Heq | [Heq | []]]]]];
        injection Heq as _ <-; discriminate.
    + exfalso. simpl in Hin.
      destruct Hin as [Heq | [Heq | [Heq | [Heq | [Heq | []]]]]];
        injection Heq as _ <-; try discriminate Hl.
      apply Hne. reflexivity.
  - intros file_id sheetname range data format columnHidden formulas
      formulasLocal formulasR1C1 rowHidden msg.
    rewrite update_range_stages. intros H.
    apply bind_Raise in H as [H | (_ & _ & H)].
    { destruct (check_str_spec
                  (items [("file_id", file_id); ("sheetname", sheetname);
                          ("range", range)]))
        as [[_ Hok] | (k & v & _ & _ & Hr)]; congruence. }
    destruct (is_none data) eqn:Hdata.
    { left. injection H as <-. split; [|reflexivity].
      destruct data; try discriminate Hdata. reflexivity. }
    right. apply bind_Raise in H as [H | (_ & _ & H)].
    + destruct (check_lists_items (np_shape data)
                  (("data", data)
                     :: list_fields format formulas formulasLocal formulasR1C1))
        as [[_ Hr] | [(k & v & _ & _ & _ & Hr) | (k & v & Hin & Hl & Hne & Hr)]];
        try congruence.
      destruct Hin as [Heq | Hin].
      * exfalso. injection Heq as _ <-. apply Hne. reflexivity.
      * exists k, v. repeat split; try assumption. congruence.
    + exfalso. apply bind_Raise in H as [H | (_ & _ & H)]; [|discriminate H].
      destruct (check_bools_items
                  [("columnHidden", columnHidden); ("rowHidden", rowHidden)])
        as [[_ Hr] | (k & v & _ & _ & Hr)]; congruence.
Qed.


End BuilderProperties.

(** ** The theorems at concrete calls, in the written order of the pairs *)

Lemma get_builders_witness :
  get_range written_order (PStr "X") (PStr "Sheet1") (PStr "A1:B3")
  = Ok (Descriptor
          "/me/drive/items/X/workbook/worksheets/Sheet1/range(address='A1:B3')"
          "get" None)
  /\ get_rangeFormat written_order (PStr "X") (PStr "Sheet1") (PStr "A1:B3")
     = Ok (Descriptor
             "/me/drive/items/X/workbook/worksheets/Sheet1/range(address='A1:B3')/format"
             "get" None).
Proof.
  exact (get_builders written_order written_order_perm "X" "Sheet1" "A1:B3").
Defined.

Lemma post_builders_witness :
  insert_empty_cells written_order (PStr "X") (PStr "Sheet1") (PStr "A1:B3") None
  = Ok (Descriptor
          "/me/drive/items/X/workbook/worksheets/Sheet1/range(address='A1:B3')/insert"
          "post" (Some [("shift", PStr "Down")]))
  /\ clear_range written_order (PStr "X") (PStr "Sheet1") (PStr "A1:B3") None
     = Ok (Descriptor
             "/me/drive/items/X/workbook/worksheets/Sheet1/range(address='A1:B3')/clear"
             "post" (Some [("applyTo", PStr "All")])).
Proof.
  destruct (post_builders written_order written_order_perm "X" "Sheet1" "A1:B3")
    as (Hinsert & Hclear & _).
  split; [exact Hinsert | exact Hclear].
Defined.

Lemma builders_require_str_witness :
  raises_TypeError
    (delete_range written_order (PStr "X") (PStr "Sheet1") (PStr "A1:B3")
       (Some (PInt 1)))
    ["file_id"; "sheetname"; "range"; "shift"]
  /\ update_range written_order (PStr "X") (PStr "Sheet1") (PStr "A1:B3") PNone
       PNone PNone PNone PNone PNone PNone
     = Raise (ValueError "Invalid data").
Proof.
  destruct (builders_require_str written_order written_order_perm)
    as (_ & _ & _ & _ & Hdelete & _ & Hdata).
  split.
  - apply Hdelete. reflexivity.
  - apply Hdata.
Defined.

Lemma update_range_not_bool_witness :
  raises_TypeError
    (update_range written_order (PStr "X") (PStr "Sheet1") (PStr "A1:B1")
       (PList [[SInt 1; SInt 2]]) (PList [[SStr "0.0"; SStr "0.0"]])
       (PStr "yes") PNone PNone PNone PNone)
    ["file_id"; "sheetname"; "range"; "data"; "format"; "formulas";
     "formulasLocal"; "formulasR1C1"; "columnHidden"; "rowHidden"].
Proof.
  apply (update_range_not_bool written_order written_order_perm).
  - reflexivity.
  - intros k v Hin Hl. simpl in Hin.
    destruct Hin as [Heq | [Heq | [Heq | [Heq | []]]]];
      injection Heq as _ <-; try discriminate Hl.
    reflexivity.
  - reflexivity.
Defined.


Lemma update_range_body_witness :
  exists body,
    request_body
      (Descriptor
         "/me/drive/items/X/workbook/worksheets/Sheet1/range(address='A1:B1')"
         "patch"
         (Some [("values", PList [[SInt 1; SInt 2]]); ("columnHidden", PBool true)]))
    = Some body
    /\ body = filter (fun kv => negb (is_none (snd kv)))
                (full_body (PList [[SInt 1; SInt 2]]) PNone (PBool true)
                   PNone PNone PNone PNone)
    /\ (forall k v,
          In (k, v) body <->
          In (k, v) (full_body (PList [[SInt 1; SInt 2]]) PNone (PBool true)
                       PNone PNone PNone PNone) /\ v <> PNone)
    /\ In ("values", PList [[SInt 1; SInt 2]]) body
    /\ (PNone = PNone -> PBool true = PNone -> PNone = PNone ->
        PNone = PNone -> PNone = PNone -> PNone = PNone ->
        body = [("values", PList [[SInt 1; SInt 2]])]).
Proof.
  apply (update_range_body written_order written_order_perm
           (PStr "X") (PStr "Sheet1") (PStr "A1:B1") (PList [[SInt 1; SInt 2]])
           PNone (PBool true) PNone PNone PNone PNone).
  reflexivity.
Defined.

Lemma update_range_data_unchecked_witness :
  update_range written_order (PStr "X") (PStr "Sheet1") (PStr "A1:B2")
    (PList [[SInt 1; SInt 2]; [SInt 3]]) PNone PNone PNone PNone PNone PNone
  = Ok (Descriptor
          "/me/drive/items/X/workbook/worksheets/Sheet1/range(address='A1:B2')"
          "patch" (Some [("values", PList [[SInt 1; SInt 2]; [SInt 3]])])).
Proof.
  exact (proj1 (update_range_data_unchecked written_order written_order_perm)
           "X" "Sheet1" "A1:B2" [[SInt 1; SInt 2]; [SInt 3]]).
Defined.

(** ** Calls on which the specification's sentences fail as written *)


(** For ragged [data] the loop compares [(rows,)] with [(rows,)]: a
    ragged field of as many rows passes, whatever the lengths of its rows,
    in the written order of the dict and in the reverse order. *)
Example update_range_ragged_field_passes :
  row_lengths [[SStr "a"]; [SStr "b"; SStr "c"]]
  <> row_lengths [[SInt 1; SInt 2]; [SInt 3]]
  /\ update_range written_order (PStr "X") (PStr "Sheet1") (PStr "A1:B2")
       (PList [[SInt 1; SInt 2]; [SInt 3]])
       (PList [[SStr "a"]; [SStr "b"; SStr "c"]]) PNone PNone PNone PNone PNone
     = Ok (Descriptor
             "/me/drive/items/X/workbook/worksheets/Sheet1/range(address='A1:B2')"
             "patch"
             (Some [("values", PList [[SInt 1; SInt 2]; [SInt 3]]);
                    ("numberFormat", PList [[SStr "a"]; [SStr "b"; SStr "c"]])]))
  /\ update_range (@rev _) (PStr "X") (PStr "Sheet1") (PStr "A1:B2")
       (PList [[SInt 1; SInt 2]; [SInt 3]])
       (PList [[SStr "a"]; [SStr "b"; SStr "c"]]) PNone PNone PNone PNone PNone
     = Ok (Descriptor
             "/me/drive/items/X/workbook/worksheets/Sheet1/range(address='A1:B2')"
             "patch"
             (Some [("values", PList [[SInt 1; SInt 2]; [SInt 3]]);
                    ("numberFormat", PList [[SStr "a"]; [SStr "b"; SStr "c"]])])).
Proof.
  split; [simpl; discriminate|]. split; reflexivity.
Qed.

(** C5: [data] is [None] and the call raises [TypeError], not
    [ValueError("Invalid data")]: the file id is not a [str], and the
    string arguments are checked first. *)
Lemma update_range_null_data_after_str_check :
  update_range written_order (PInt 5) (PStr "Sheet1") (PStr "A1") PNone
    PNone PNone PNone PNone PNone PNone
  = Raise (TypeError "Invalid file_id type").
Proof. reflexivity. Qed.

(** C6: [columnHidden] is provided and is not a [bool], and the call
    raises [ValueError("Invalid data")], not [TypeError]: [data] is [None],
    and [data] is checked before the boolean fields. *)
Lemma update_range_not_bool_after_data_check :
  not_bool (PInt 5) = true
  /\ update_range written_order (PStr "X") (PStr "Sheet1") (PStr "A1") PNone
       PNone (PInt 5) PNone PNone PNone PNone
     = Raise (ValueError "Invalid data").
Proof. split; reflexivity. Qed.

(** * More of the code *)

(** ** What the address holds *)

Lemma list_ascii_of_append (a b : string) :
  list_ascii_of_string (a ++ b)
  = (list_ascii_of_string a ++ list_ascii_of_string b)%list.
Proof. induction a as [|x a IH]; simpl; [reflexivity | rewrite IH; reflexivity]. Qed.

(** The code of the letter of a digit. *)
Lemma letter_code (n : Z) :
  0 <= n < 26 -> Z.of_N (N_of_ascii (letter n)) = 64 + n.
Proof.
  intros Hn. unfold letter. rewrite N_ascii_embedding; lia.
Qed.

(** When the [while] loop ends, it ends on a power of 26 above [col], the
    first one above 26 ^ n that is. *)
Lemma count_digits_Some (fuel : nat) (col : Z) (n : nat) (d : Z) (m : nat) :
  count_digits fuel col (26 ^ Z.of_nat n) n = Some (d, m) ->
  d = 26 ^ Z.of_nat m /\ col < 26 ^ Z.of_nat m /\ (n <= m)%nat
  /\ ((n < m)%nat -> 26 ^ Z.of_nat (Nat.pred m) <= col).
Proof.
  revert n. induction fuel as [|fuel IH]; intros n H; [discriminate H|].
  simpl in H. destruct (col >=? 26 ^ Z.of_nat n) eqn:Hge;
    rewrite Z.geb_leb in Hge.
  - apply Z.leb_le in Hge. rewrite <- pow26_S in H.
    destruct (IH (S n) H) as (Hd & Hlt & Hle & Hlow).
    repeat split; [exact Hd | exact Hlt | lia |].
    intros _. destruct (Nat.eq_dec m (S n)) as [-> | Hne].
    + exact Hge.
    + apply Hlow. lia.
  - apply Z.leb_gt in Hge. injection H as <- <-.
    repeat split; [exact Hge | lia | lia].
Qed.

(** The letters the [for] loop appends below [26 ^ i]: [i] characters from
    ["@"] to ["Y"], which read in base 26 give [col] back. *)
Lemma column_letters_digits (i : nat) (col : Z) (xl_col : string) :
  0 <= col < 26 ^ Z.of_nat i ->
  exists s,
    column_letters i col xl_col = Ok (xl_col ++ s)
    /\ String.length s = i
    /\ (forall acc, column_number_from acc s = acc * 26 ^ Z.of_nat i + col)
    /\ (forall c, In c (list_ascii_of_string s) ->
                  64 <= Z.of_N (N_of_ascii c) <= 89).
Proof.
  revert col xl_col. induction i as [|i IH]; intros col xl_col Hcol.
  - change (26 ^ Z.of_nat 0) with 1 in *. exists EmptyString.
    split; [simpl; rewrite append_nil_r; reflexivity|].
    split; [reflexivity|]. split; [intros acc; simpl; lia|].
    intros c [].
  - pose proof (pow26_pos i) as Hpos. rewrite pow26_S in Hcol.
    rewrite column_letters_S, pow26_S.
    set (p := 26 ^ Z.of_nat i) in *. set (n := col / p).
    assert (Hn : 0 <= n < 26).
    { unfold n. split; [apply Z.div_pos; lia|].
      apply Z.div_lt_upper_bound; lia. }
    assert (Hrest : 0 <= col - n * p < p).
    { pose proof (Z.div_mod col p ltac:(lia)) as Hdm.
      pose proof (Z.mod_pos_bound col p Hpos) as Hmod.
      fold n in Hdm. lia. }
    rewrite (chr_letter n Hn). cbn [bind].
    destruct (IH (col - n * p) (xl_col ++ String (letter n) EmptyString) Hrest)
      as (s & Hs & Hlen & Hnum & Hrange).
    exists (String (letter n) s).
    split; [rewrite Hs, append_assoc; reflexivity|].
    split; [simpl; rewrite Hlen; reflexivity|]. split.
    + intros acc. cbn [column_number_from].
      rewrite (letter_code n Hn), Hnum. lia.
    + intros c [<- | Hin].
      * rewrite (letter_code n Hn). lia.
      * apply Hrange. exact Hin.
Qed.

(** What a call that returns was given, and what it returns. *)
Lemma get_range_of_data_Ok (fuel : nat) (data : pyval) (s : string) :
  get_range_of_data fuel data = Some (Ok s) ->
  exists r rs m xl_col,
    data = PList (r :: rs)
    /\ (forall r', In r' rs -> length r' = length r)
    /\ Z.of_nat (length r) < 26 ^ Z.of_nat m
    /\ column_letters m (Z.of_nat (length r)) EmptyString = Ok xl_col
    /\ s = "A1:" ++ xl_col ++ str_of_int (Z.of_nat (length (r :: rs))).
Proof.
  unfold get_range_of_data. intros H.
  destruct data as [| b | z | t | rows]; try discriminate H.
  destruct rows as [|r rs]; [discriminate H|].
  cbn [is_none np_shape] in H.
  destruct (forallb (fun r' => Nat.eqb (length r') (length r)) rs) eqn:Hall;
    [|discriminate H].
  cbn [tuple_get nth_error except_IndexError] in H.
  change 26 with (26 ^ Z.of_nat 1) in H at 1.
  destruct (count_digits fuel (Z.of_nat (length r)) (26 ^ Z.of_nat 1) 1)
    as [[d m]|] eqn:Hcount; [|discriminate H].
  destruct (count_digits_Some _ _ _ _ _ Hcount) as (_ & Hlt & _).
  destruct (column_letters m (Z.of_nat (length r)) EmptyString) as [xl|e] eqn:Hxl;
    [|discriminate H].
  cbn [bind] in H. injection H as <-.
  exists r, rs, m, xl. repeat split; try assumption.
  intros r' Hin. apply Nat.eqb_eq.
  rewrite forallb_forall in Hall. apply Hall. exact Hin.
Qed.

(** X1: on a table of [R >= 1] rows of [C] cells each, with more fuel than
    columns, [get_range_of_data] returns "A1:", letters and [R], and the
    letters read as a base-26 column number (A for 1) give [C] back: two
    tables with different numbers of columns never get the same letters. *)
Theorem get_range_of_data_column_number (fuel : nat) (r : list scalar)
  (rs : list (list scalar)) :
  (forall r', In r' rs -> length r' = length r) ->
  (length r < fuel)%nat ->
  exists xl_col,
    get_range_of_data fuel (PList (r :: rs))
    = Some (Ok ("A1:" ++ xl_col ++ str_of_int (Z.of_nat (length (r :: rs)))))
    /\ column_number xl_col = Z.of_nat (length r).
Proof.
  intros Hall Hfuel.
  destruct (get_range_of_data_rectangular fuel r rs Hall Hfuel) as (xl0 & Hret).
  destruct (get_range_of_data_Ok _ _ _ Hret)
    as (r0 & rs0 & m & xl & Heq & _ & Hlt & Hxl & Hs).
  injection Heq as <- <-.
  destruct (column_letters_digits m (Z.of_nat (length r)) EmptyString)
    as (s & Hs' & _ & Hnum & _); [lia|].
  rewrite Hxl in Hs'. injection Hs' as ->.
  exists s. split.
  - rewrite Hret, Hs. reflexivity.
  - unfold column_number. rewrite Hnum. lia.
Qed.

Lemma get_range_of_data_column_number_witness :
  exists xl_col,
    get_range_of_data 27 (PList [cells 26; cells 26])
    = Some (Ok ("A1:" ++ xl_col ++ str_of_int 2))
    /\ column_number xl_col = 26.
Proof.
  apply (get_range_of_data_column_number 27 (cells 26) [cells 26]).
  - intros r' [<- | []]. reflexivity.
  - vm_compute. lia.
Defined.

(** X20: the number of letters of the address is the number of digits of
    the column count in base 26: one letter below 26 columns, and [k]
    letters from [26 ^ (k - 1)] columns up to [26 ^ k - 1]. *)
Theorem get_range_of_data_letter_count (fuel : nat) (r : list scalar)
  (rs : list (list scalar)) :
  (forall r', In r' rs -> length r' = length r) ->
  (length r < fuel)%nat ->
  exists xl_col,
    get_range_of_data fuel (PList (r :: rs))
    = Some (Ok ("A1:" ++ xl_col ++ str_of_int (Z.of_nat (length (r :: rs)))))
    /\ (1 <= String.length xl_col)%nat
    /\ Z.of_nat (length r) < 26 ^ Z.of_nat (String.length xl_col)
    /\ ((1 < String.length xl_col)%nat ->
        26 ^ Z.of_nat (Nat.pred (String.length xl_col)) <= Z.of_nat (length r)).
Proof.
  intros Hall Hfuel. unfold get_range_of_data.
  rewrite (np_shape_rectangular r rs Hall).
  cbn [is_none tuple_get nth_error except_IndexError].
  change 26 with (26 ^ Z.of_nat 1) at 1.
  destruct (count_digits_enough fuel (Z.of_nat (length r)) 1)
    as (m & -> & Hlt & Hle & Hlow).
  { change (26 ^ Z.of_nat 1) with 26. lia. }
  destruct (column_letters_digits m (Z.of_nat (length r)) EmptyString)
    as (s & -> & Hlen & _); [lia|].
  exists s. rewrite Hlen. repeat split; assumption.
Qed.

Lemma get_range_of_data_letter_count_witness :
  exists xl_col,
    get_range_of_data 27 (PList [cells 26])
    = Some (Ok ("A1:" ++ xl_col ++ str_of_int 1))
    /\ (1 <= String.length xl_col)%nat
    /\ 26 < 26 ^ Z.of_nat (String.length xl_col)
    /\ ((1 < String.length xl_col)%nat ->
        26 ^ Z.of_nat (Nat.pred (String.length xl_col)) <= 26).
Proof.
  apply (get_range_of_data_letter_count 27 (cells 26) []).
  - intros r' [].
  - vm_compute. lia.
Defined.

(** [str] of an integer holds digits and a sign only. *)
Lemma string_of_uint_digits (d : Decimal.uint) (c : ascii) :
  In c (list_ascii_of_string (NilEmpty.string_of_uint d)) ->
  48 <= Z.of_N (N_of_ascii c) <= 57.
Proof.
  induction d as [| d IH | d IH | d IH | d IH | d IH | d IH | d IH | d IH
                  | d IH | d IH]; simpl;
    try (intros [<- | Hin]; [vm_compute; split; discriminate | exact (IH Hin)]).
  intros [].
Qed.

Lemma str_of_int_chars (i : Z) (c : ascii) :
  In c (list_ascii_of_string (str_of_int i)) ->
  Z.of_N (N_of_ascii c) <= 57.
Proof.
  unfold str_of_int, NilZero.string_of_int, NilZero.string_of_uint.
  destruct (Z.to_int i) as [d | d]; destruct d; simpl;
    repeat (intros [<- | Hin]; [vm_compute; discriminate | revert Hin]);
    try (intros []);
    intros Hin; apply string_of_uint_digits in Hin; lia.
Qed.

(** X3: no address that [get_range_of_data] returns holds the letter Z,
    whatever the table: the loop prints the digits 0 to 25 as ["@"] to
    ["Y"], so the columns Z, AZ, ZA, ... are never named. *)
Theorem get_range_of_data_never_Z (fuel : nat) (data : pyval) (s : string) :
  get_range_of_data fuel data = Some (Ok s) ->
  ~ In "Z"%char (list_ascii_of_string s).
Proof.
  intros H.
  destruct (get_range_of_data_Ok _ _ _ H)
    as (r & rs & m & xl & _ & _ & Hlt & Hxl & ->).
  destruct (column_letters_digits m (Z.of_nat (length r)) EmptyString)
    as (s' & Hs' & _ & _ & Hrange); [lia|].
  rewrite Hxl in Hs'. injection Hs' as ->.
  rewrite !list_ascii_of_append. intros Hin.
  apply in_app_or in Hin as [Hin | Hin].
  - simpl in Hin. destruct Hin as [Heq | [Heq | [Heq | []]]]; discriminate Heq.
  - apply in_app_or in Hin as [Hin | Hin].
    + apply Hrange in Hin. vm_compute in Hin. destruct Hin as [_ Hle].
      apply Hle. reflexivity.
    + apply str_of_int_chars in Hin. vm_compute in Hin. apply Hin. reflexivity.
Qed.

Lemma get_range_of_data_never_Z_witness :
  ~ In "Z"%char (list_ascii_of_string "A1:A@3").
Proof.
  apply (get_range_of_data_never_Z 2 (PList [cells 26; cells 26; cells 26])).
  reflexivity.
Defined.

(** ** [get_range_of_data] on nested lists and tuples *)

Lemma fold_common_prefix_nil (ds : list (list Z)) :
  fold_left ArrayLike.common_prefix ds [] = [].
Proof. induction ds as [|d ds IH]; simpl; [reflexivity | exact IH]. Qed.













(** A tuple of tuples gets an address, a tuple that is not [None] and not a
    list raises the [ValueError] of the [except] branch, and so does a
    flat list. *)
Example get_range_of_data_tuples :
  ArrayLike.get_range_of_data 1
    (ArrayLike.VTuple
       [ArrayLike.VTuple [ArrayLike.VInt 1; ArrayLike.VInt 2];
        ArrayLike.VTuple [ArrayLike.VInt 3; ArrayLike.VInt 4]])
  = Some (Ok "A1:B2")
  /\ ArrayLike.get_range_of_data 1
       (ArrayLike.VTuple [ArrayLike.VInt 1; ArrayLike.VInt 2])
     = Some (Raise (ValueError msg_columns_differ))
  /\ ArrayLike.get_range_of_data 1
       (ArrayLike.VList [ArrayLike.VInt 1; ArrayLike.VInt 2; ArrayLike.VInt 3])
     = Some (Raise (ValueError msg_columns_differ))
  /\ ArrayLike.get_range_of_data 1
       (ArrayLike.VList
          [ArrayLike.VList [ArrayLike.VList [ArrayLike.VInt 1; ArrayLike.VInt 2]]])
     = Some (Ok "A1:A1").
Proof. repeat split. Qed.

(** *** Tables among the nested sequences *)

Lemma discover_dimensions_row (r : list scalar) :
  ArrayLike.discover_dimensions (ArrayLike.VList (map ArrayLike.of_scalar r))
  = [Z.of_nat (length r)].
Proof.
  cbn [ArrayLike.discover_dimensions]. rewrite length_map. f_equal.
  destruct r as [|c r]; [reflexivity|]. cbn [map].
  replace (ArrayLike.discover_dimensions (ArrayLike.of_scalar c)) with (@nil Z)
    by (destruct c; reflexivity).
  apply fold_common_prefix_nil.
Qed.

Lemma fold_common_prefix_rows (rs : list (list scalar)) (c : nat) :
  fold_left ArrayLike.common_prefix
    (map (fun r' => [Z.of_nat (length r')]) rs) [Z.of_nat c]
  = if forallb (fun r' => Nat.eqb (length r') c) rs then [Z.of_nat c] else [].
Proof.
  induction rs as [|r rs IH]; [reflexivity|].
  cbn [map fold_left forallb ArrayLike.common_prefix].
  destruct (Nat.eqb_spec (length r) c) as [Heq | Hne].
  - rewrite Heq, Z.eqb_refl. cbn [andb]. exact IH.
  - destruct (Z.eqb_spec (Z.of_nat c) (Z.of_nat (length r))) as [Heq | _];
      [lia|].
    cbn [andb]. apply fold_common_prefix_nil.
Qed.

(** On the values of [pyval] the two [np.shape] agree. *)
Lemma np_shape_of_pyval (v : pyval) :
  ArrayLike.np_shape (ArrayLike.of_pyval v) = np_shape v.
Proof.
  destruct v as [| b | z | t | rows]; try reflexivity.
  unfold ArrayLike.np_shape, ArrayLike.of_pyval, np_shape.
  cbn [ArrayLike.discover_dimensions]. rewrite length_map, map_map.
  rewrite (map_ext _ (fun r' => [Z.of_nat (length r')]) discover_dimensions_row).
  destruct rows as [|r rs]; [reflexivity|].
  cbn [map]. rewrite fold_common_prefix_rows.
  destruct (forallb (fun r' => Nat.eqb (length r') (length r)) rs); reflexivity.
Qed.

(** On the values of [pyval] the two embeddings of [get_range_of_data]
    agree. *)
Lemma get_range_of_data_of_pyval (fuel : nat) (v : pyval) :
  ArrayLike.get_range_of_data fuel (ArrayLike.of_pyval v)
  = get_range_of_data fuel v.
Proof.
  unfold ArrayLike.get_range_of_data, get_range_of_data.
  rewrite np_shape_of_pyval. destruct v; reflexivity.
Qed.

(** X6: a table of rows that are all empty is not refused: it has the
    shape [(rows, 0)], the loop prints the one digit 0, and the address is
    "A1:@" followed by the number of rows. *)
Theorem get_range_of_data_no_columns (fuel : nat) (rs : list (list scalar)) :
  (forall r', In r' rs -> r' = []) ->
  get_range_of_data (S fuel) (PList ([] :: rs))
  = Some (Ok ("A1:@" ++ str_of_int (Z.of_nat (S (length rs))))).
Proof.
  intros Hempty. unfold get_range_of_data.
  rewrite (np_shape_rectangular [] rs).
  - reflexivity.
  - intros r' Hin. rewrite (Hempty r' Hin). reflexivity.
Qed.

Lemma get_range_of_data_no_columns_witness :
  get_range_of_data 1 (PList [[]; []; []]) = Some (Ok "A1:@3").
Proof.
  apply (get_range_of_data_no_columns 0 [[]; []]).
  intros r' [<- | [<- | []]]; reflexivity.
Defined.

(** ** The whole of [update_range] *)

Section MoreOfTheBuilders.

Variable items : dict -> list (string * pyval).
Hypothesis items_perm : forall d : dict, Permutation (items d) d.

Lemma update_range_Ok_inv
  (file_id sheetname range data format columnHidden formulas formulasLocal
     formulasR1C1 rowHidden : pyval) (d : descriptor) :
  update_range items file_id sheetname range data format columnHidden formulas
    formulasLocal formulasR1C1 rowHidden = Ok d ->
  update_range_accepts file_id sheetname range data format columnHidden
    formulas formulasLocal formulasR1C1 rowHidden
  /\ d = update_range_descriptor file_id sheetname range data format
           columnHidden formulas formulasLocal formulasR1C1 rowHidden.
Proof.
  rewrite (update_range_stages items items_perm). intros H.
  apply bind_Ok in H as ([] & Hstr & H).
  destruct (is_none data) eqn:Hdata; [discriminate H|].
  apply bind_Ok in H as ([] & Hlists & H).
  apply bind_Ok in H as ([] & Hbools & H).
  injection H as <-. split; [|reflexivity].
  destruct (check_lists_items items items_perm (np_shape data)
              (("data", data)
                 :: list_fields format formulas formulasLocal formulasR1C1))
    as [[Hall _] | [(k & v & _ & _ & _ & Hr) | (k & v & _ & _ & _ & Hr)]];
    try congruence.
  destruct (check_bools_items items items_perm
              [("columnHidden", columnHidden); ("rowHidden", rowHidden)])
    as [[Hb _] | (k & v & _ & _ & Hr)]; try congruence.
  split; [exact (check_str_items_Ok items items_perm _ Hstr)|].
  split.
  { destruct (Hall "data" data (or_introl eq_refl)) as [-> | [Hl _]];
      [discriminate Hdata | exact Hl]. }
  split; [intros k v Hin; apply (Hall k v); right; exact Hin|].
  split; [apply (Hb "columnHidden") | apply (Hb "rowHidden")]; simpl; auto.
Qed.

Lemma update_range_Ok_intro
  (file_id sheetname range data format columnHidden formulas formulasLocal
     formulasR1C1 rowHidden : pyval) :
  update_range_accepts file_id sheetname range data format columnHidden
    formulas formulasLocal formulasR1C1 rowHidden ->
  update_range items file_id sheetname range data format columnHidden formulas
    formulasLocal formulasR1C1 rowHidden
  = Ok (update_range_descriptor file_id sheetname range data format
          columnHidden formulas formulasLocal formulasR1C1 rowHidden).
Proof.
  intros (Hstr & Hdata & Hfields & Hc & Hr).
  rewrite (update_range_stages items items_perm).
  rewrite (check_str_items_true items items_perm) by exact Hstr. cbn [bind].
  replace (is_none data) with false by (destruct data; try discriminate; reflexivity).
  destruct (check_lists_items items items_perm (np_shape data)
              (("data", data)
                 :: list_fields format formulas formulasLocal formulasR1C1))
    as [[_ ->] | [(k & v & Hin & Hn & Hl & _) | (k & v & Hin & Hl & Hne & _)]].
  - cbn [bind].
    destruct (check_bools_items items items_perm
                [("columnHidden", columnHidden); ("rowHidden", rowHidden)])
      as [[_ ->] | (k & v & Hin & Hb & _)].
    + reflexivity.
    + exfalso. simpl in Hin.
      destruct Hin as [Heq | [Heq | []]]; injection Heq as _ <-; congruence.
  - exfalso. destruct Hin as [Heq | Hin].
    + injection Heq as _ <-. congruence.
    + destruct (Hfields k v Hin) as [-> | [Hl' _]]; [discriminate Hn | congruence].
  - exfalso. destruct Hin as [Heq | Hin].
    + injection Heq as _ <-. apply Hne. reflexivity.
    + destruct (Hfields k v Hin) as [-> | [_ Heq]];
        [discriminate Hl | apply Hne; exact Heq].
Qed.

(** X7: [update_range] returns exactly when the file id, sheet name and
    range are [str], [data] is a list, every list-typed field is unset or
    a list of the shape of [data], and [columnHidden] and [rowHidden] are
    unset or [bool]; it then returns the shared path with no suffix, the
    verb "patch" and the body of the provided fields. *)
Theorem update_range_returns_iff
  (file_id sheetname range data format columnHidden formulas formulasLocal
     formulasR1C1 rowHidden : pyval) (d : descriptor) :
  update_range items file_id sheetname range data format columnHidden formulas
    formulasLocal formulasR1C1 rowHidden = Ok d
  <->
  update_range_accepts file_id sheetname range data format columnHidden
    formulas formulasLocal formulasR1C1 rowHidden
  /\ d = update_range_descriptor file_id sheetname range data format
           columnHidden formulas formulasLocal formulasR1C1 rowHidden.
Proof.
  split.
  - apply update_range_Ok_inv.
  - intros [Hacc ->]. apply update_range_Ok_intro. exact Hacc.
Qed.

(** X8: every exception of [update_range] names an argument that is at
    fault: a [TypeError] a file id, sheet name or range that is not a
    [str], a provided [data] or list-typed field that is not a list, or a
    provided [columnHidden] or [rowHidden] that is not a [bool]; a
    [ValueError] a [data] that is [None] or a list-typed field whose shape
    is not that of [data].  The loop that deletes the unset fields never
    raises [KeyError]. *)
Theorem update_range_raises
  (file_id sheetname range data format columnHidden formulas formulasLocal
     formulasR1C1 rowHidden : pyval) (e : exn) :
  update_range items file_id sheetname range data format columnHidden formulas
    formulasLocal formulasR1C1 rowHidden = Raise e ->
  (exists k v,
      In (k, v) [("file_id", file_id); ("sheetname", sheetname); ("range", range)]
      /\ is_str v = false /\ e = TypeError (msg_invalid_type k))
  \/ (data = PNone /\ e = ValueError msg_invalid_data)
  \/ (exists k v,
        In (k, v) (("data", data)
                     :: list_fields format formulas formulasLocal formulasR1C1)
        /\ is_none v = false /\ is_list v = false
        /\ e = TypeError (msg_invalid_type k))
  \/ (exists k v,
        In (k, v) (list_fields format formulas formulasLocal formulasR1C1)
        /\ is_list v = true /\ np_shape v <> np_shape data
        /\ e = ValueError (msg_shape k))
  \/ (exists k v,
        In (k, v) [("columnHidden", columnHidden); ("rowHidden", rowHidden)]
        /\ not_bool v = true /\ e = TypeError (msg_invalid_type k)).
Proof.
  rewrite (update_range_stages items items_perm). intros H.
  apply bind_Raise in H as [H | (_ & _ & H)].
  { left.
    destruct (check_str_spec
                (items [("file_id", file_id); ("sheetname", sheetname);
                        ("range", range)]))
      as [[_ Hok] | (k & v & Hin & Hv & Hr)]; [congruence|].
    exists k, v. apply (Permutation_in _ (items_perm _)) in Hin.
    repeat split; [exact Hin | exact Hv | congruence]. }
  right. destruct (is_none data) eqn:Hdata.
  { left. injection H as <-. split; [|reflexivity].
    destruct data; try discriminate Hdata. reflexivity. }
  right. apply bind_Raise in H as [H | (_ & _ & H)].
  { destruct (check_lists_items items items_perm (np_shape data)
                (("data", data)
                   :: list_fields format formulas formulasLocal formulasR1C1))
      as [[_ Hr] | [(k & v & Hin & Hn & Hl & Hr) | (k & v & Hin & Hl & Hne & Hr)]];
      [congruence | |].
    - left. exists k, v. repeat split; try assumption. congruence.
    - right. left. destruct Hin as [Heq | Hin].
      + exfalso. injection Heq as _ <-. apply Hne. reflexivity.
      + exists k, v. repeat split; try assumption. congruence. }
  right. right. apply bind_Raise in H as [H | (_ & _ & H)]; [|discriminate H].
  destruct (check_bools_items items items_perm
              [("columnHidden", columnHidden); ("rowHidden", rowHidden)])
    as [[_ Hr] | (k & v & Hin & Hb & Hr)]; [congruence|].
  exists k, v. repeat split; try assumption. congruence.
Qed.

(** X9: the mode of [insert_empty_cells], [clear_range] and
    [delete_range] is not looked at beyond its type: every [str], "Down"
    or not, goes to the body as it is. *)
Theorem post_builders_forward_mode (f s r mode : string) :
  insert_empty_cells items (PStr f) (PStr s) (PStr r) (Some (PStr mode))
  = Ok (Descriptor (range_endpoint f s r "/insert") "post"
          (Some [("shift", PStr mode)]))
  /\ clear_range items (PStr f) (PStr s) (PStr r) (Some (PStr mode))
     = Ok (Descriptor (range_endpoint f s r "/clear") "post"
             (Some [("applyTo", PStr mode)]))
  /\ delete_range items (PStr f) (PStr s) (PStr r) (Some (PStr mode))
     = Ok (Descriptor (range_endpoint f s r "/delete") "post"
             (Some [("shift", PStr mode)])).
Proof.
  repeat split.
  - unfold insert_empty_cells.
    rewrite (check_str_items_true items items_perm) by reflexivity. reflexivity.
  - unfold clear_range.
    rewrite (check_str_items_true items items_perm) by reflexivity. reflexivity.
  - unfold delete_range.
    rewrite (check_str_items_true items items_perm) by reflexivity. reflexivity.
Qed.

Lemma range_endpoint_splice (a b c r suffix : string) :
  range_endpoint (a ++ "/workbook/worksheets/" ++ b) c r suffix
  = range_endpoint a (b ++ "/workbook/worksheets/" ++ c) r suffix.
Proof. unfold range_endpoint. rewrite !append_assoc. reflexivity. Qed.

(** X11: the arguments go into the path as they are, with no escaping, so
    the path does not tell them apart: a file id that ends in
    "/workbook/worksheets/b" with the sheet "c" gives the descriptor of
    the file id without that ending with the sheet
    "b/workbook/worksheets/c". *)
Theorem builders_splice_arguments (a b c r : string) :
  get_range items (PStr (a ++ "/workbook/worksheets/" ++ b)) (PStr c) (PStr r)
  = get_range items (PStr a) (PStr (b ++ "/workbook/worksheets/" ++ c)) (PStr r)
  /\ delete_range items (PStr (a ++ "/workbook/worksheets/" ++ b)) (PStr c)
       (PStr r) None
     = delete_range items (PStr a) (PStr (b ++ "/workbook/worksheets/" ++ c))
         (PStr r) None
  /\ exists d,
       get_range items (PStr (a ++ "/workbook/worksheets/" ++ b)) (PStr c) (PStr r)
       = Ok d.
Proof.
  unfold get_range, delete_range.
  rewrite !(check_str_items_true items items_perm) by reflexivity.
  cbn [bind str_val].
  pose proof (range_endpoint_splice a b c r EmptyString) as Hget.
  pose proof (range_endpoint_splice a b c r "/delete") as Hdel.
  unfold range_endpoint in Hget, Hdel.
  split; [|split].
  - f_equal. f_equal. exact Hget.
  - f_equal. f_equal. exact Hdel.
  - eexists. reflexivity.
Qed.

End MoreOfTheBuilders.

(** ** The order of [items()] *)

Lemma check_str_any_order (items1 items2 : dict -> list (string * pyval))
  (d : dict) :
  (forall d, Permutation (items1 d) d) -> (forall d, Permutation (items2 d) d) ->
  check_str (items1 d) = Ok tt -> check_str (items2 d) = Ok tt.
Proof.
  intros H1 H2 Hok. apply (check_str_items_true items2 H2).
  apply (check_str_items_Ok items1 H1). exact Hok.
Qed.

(** X10: what a builder returns does not depend on the order in which
    [items()] walks its dicts: a call that returns under one order returns
    the same descriptor under every other, and a call that raises under
    one raises under every other (the exception may name another
    argument, see below). *)
Theorem builders_any_order (items1 items2 : dict -> list (string * pyval)) :
  (forall d, Permutation (items1 d) d) -> (forall d, Permutation (items2 d) d) ->
  (forall file_id sheetname range data format columnHidden formulas
          formulasLocal formulasR1C1 rowHidden,
      (forall d,
          update_range items1 file_id sheetname range data format columnHidden
            formulas formulasLocal formulasR1C1 rowHidden = Ok d ->
          update_range items2 file_id sheetname range data format columnHidden
            formulas formulasLocal formulasR1C1 rowHidden = Ok d)
      /\ (forall e,
            update_range items1 file_id sheetname range data format
              columnHidden formulas formulasLocal formulasR1C1 rowHidden
            = Raise e ->
            exists e',
              update_range items2 file_id sheetname range data format
                columnHidden formulas formulasLocal formulasR1C1 rowHidden
              = Raise e'))
  /\ (forall file_id sheetname range d,
        (get_range items1 file_id sheetname range = Ok d ->
         get_range items2 file_id sheetname range = Ok d)
        /\ (get_rangeFormat items1 file_id sheetname range = Ok d ->
            get_rangeFormat items2 file_id sheetname range = Ok d))
  /\ (forall file_id sheetname range mode d,
        (insert_empty_cells items1 file_id sheetname range mode = Ok d ->
         insert_empty_cells items2 file_id sheetname range mode = Ok d)
        /\ (clear_range items1 file_id sheetname range mode = Ok d ->
            clear_range items2 file_id sheetname range mode = Ok d)
        /\ (delete_range items1 file_id sheetname range mode = Ok d ->
            delete_range items2 file_id sheetname range mode = Ok d)).
Proof.
  intros H1 H2. split; [|split].
  - intros file_id sheetname range data format columnHidden formulas
      formulasLocal formulasR1C1 rowHidden. split.
    + intros d H. apply (update_range_Ok_inv items1 H1) in H as [Hacc ->].
      apply (update_range_Ok_intro items2 H2). exact Hacc.
    + intros e H.
      destruct (update_range items2 file_id sheetname range data format
                  columnHidden formulas formulasLocal formulasR1C1 rowHidden)
        as [d | e'] eqn:H'; [|exists e'; reflexivity].
      apply (update_range_Ok_inv items2 H2) in H' as [Hacc _].
      rewrite (update_range_Ok_intro items1 H1 _ _ _ _ _ _ _ _ _ _ Hacc) in H.
      discriminate H.
  - intros file_id sheetname range d.
    unfold get_range, get_rangeFormat.
    split; intros H; apply bind_Ok in H as ([] & Hstr & H);
      rewrite (check_str_any_order items1 items2 _ H1 H2 Hstr); exact H.
  - intros file_id sheetname range mode d.
    unfold insert_empty_cells, clear_range, delete_range.
    repeat split; intros H; apply bind_Ok in H as ([] & Hstr & H);
      rewrite (check_str_any_order items1 items2 _ H1 H2 Hstr); exact H.
Qed.

Lemma rev_order_perm (d : dict) : Permutation (rev d) d.
Proof. apply Permutation_sym, Permutation_rev. Qed.

Lemma builders_any_order_witness :
  get_range (@rev _) (PStr "X") (PStr "Sheet1") (PStr "A1:B3")
  = Ok (Descriptor
          "/me/drive/items/X/workbook/worksheets/Sheet1/range(address='A1:B3')"
          "get" None).
Proof.
  destruct (builders_any_order written_order (@rev _) written_order_perm
              rev_order_perm) as (_ & Hget & _).
  apply (Hget (PStr "X") (PStr "Sheet1") (PStr "A1:B3")). reflexivity.
Defined.

(** Which exception a call raises does depend on the order: the same call
    raises [TypeError] in the written order and [ValueError] in the
    reverse order. *)
Example update_range_exception_depends_on_order :
  update_range written_order (PStr "X") (PStr "Sheet1") (PStr "A1")
    (PList [[SInt 1]]) PNone PNone (PInt 5) (PList [[SInt 1; SInt 2]]) PNone PNone
  = Raise (TypeError "Invalid formulas type")
  /\ update_range (@rev _) (PStr "X") (PStr "Sheet1") (PStr "A1")
       (PList [[SInt 1]]) PNone PNone (PInt 5) (PList [[SInt 1; SInt 2]]) PNone
       PNone
     = Raise (ValueError "formulasLocal shape and data shape must be the same").
Proof. split; reflexivity. Qed.

(** ** The script *)

(** X12: in the script, the address of a table always passes the string
    check of [delete_range]: for a table of [R >= 1] rows of [C] cells
    each [configs] is the "/delete" descriptor of that address, with the
    verb "post" and the body [{"shift": "Up"}]; and [configs] raises only
    what [get_range_of_data] raises. *)
Theorem configs_of_table (items : dict -> list (string * pyval)) (fuel : nat) :
  (forall d, Permutation (items d) d) ->
  (forall r rs,
      (forall r', In r' rs -> length r' = length r) -> (length r < fuel)%nat ->
      exists xl_col,
        column_number xl_col = Z.of_nat (length r)
        /\ configs items fuel (PList (r :: rs))
           = Some (Ok (Descriptor
                         (range_endpoint "01BEQXWXBQ2QNOPSCY4NB2EEE3V2K53RA5"
                            "Sheet1"
                            ("A1:" ++ xl_col
                               ++ str_of_int (Z.of_nat (length (r :: rs))))
                            "/delete")
                         "post" (Some [("shift", PStr "Up")]))))
  /\ (forall data e,
        configs items fuel data = Some (Raise e) ->
        get_range_of_data fuel data = Some (Raise e)).
Proof.
  intros Hperm. split.
  - intros r rs Hall Hfuel.
    destruct (get_range_of_data_rectangular fuel r rs Hall Hfuel) as (xl0 & Hret).
    destruct (get_range_of_data_Ok _ _ _ Hret)
      as (r0 & rs0 & m & xl & Heq & _ & Hlt & Hxl & Hs).
    injection Heq as <- <-.
    destruct (column_letters_digits m (Z.of_nat (length r)) EmptyString)
      as (s & Hs' & _ & Hnum & _); [lia|].
    rewrite Hxl in Hs'. injection Hs' as ->.
    exists s. split; [unfold column_number; rewrite Hnum; lia|].
    unfold configs. rewrite Hret, Hs. cbn [bind]. unfold delete_range.
    rewrite (check_str_items_true items Hperm) by reflexivity. reflexivity.
  - intros data e. unfold configs.
    destruct (get_range_of_data fuel data) as [[range | e']|];
      [| intros H; cbn [bind] in H; injection H as ->; reflexivity
       | discriminate].
    cbn [bind]. unfold delete_range.
    rewrite (check_str_items_true items Hperm) by reflexivity. discriminate.
Qed.

Lemma configs_of_table_witness :
  exists xl_col,
    column_number xl_col = 2
    /\ configs written_order 3
         (PList [[SStr "a"; SStr "b"]; [SStr "c"; SStr "d"]; [SStr "e"; SStr "f"]])
       = Some (Ok (Descriptor
                     (range_endpoint "01BEQXWXBQ2QNOPSCY4NB2EEE3V2K53RA5"
                        "Sheet1" ("A1:" ++ xl_col ++ str_of_int 3) "/delete")
                     "post" (Some [("shift", PStr "Up")]))).
Proof.
  destruct (configs_of_table written_order 3 written_order_perm) as [Hok _].
  apply (Hok [SStr "a"; SStr "b"] [[SStr "c"; SStr "d"]; [SStr "e"; SStr "f"]]).
  - intros r' [<- | [<- | []]]; reflexivity.
  - simpl. lia.
Defined.

(** ** The session *)

Lemma session_get_set_same (k v : string) (s : session) :
  session_get k (session_set k v s) = Some v.
Proof.
  induction s as [|[k' v'] s IH]; simpl.
  - rewrite String.eqb_refl. reflexivity.
  - destruct (String.eqb_spec k' k) as [-> | Hne]; simpl.
    + rewrite String.eqb_refl. reflexivity.
    + destruct (String.eqb_spec k' k); [contradiction | exact IH].
Qed.

Lemma session_get_set_other (k k' v : string) (s : session) :
  k' <> k -> session_get k' (session_set k v s) = session_get k' s.
Proof.
  intros Hne. induction s as [|[k0 v0] s IH]; simpl.
  - destruct (String.eqb_spec k k'); [congruence | reflexivity].
  - destruct (String.eqb_spec k0 k) as [-> | Hk0]; simpl.
    + destruct (String.eqb_spec k k'); [congruence | reflexivity].
    + destruct (String.eqb_spec k0 k'); [reflexivity | exact IH].
Qed.

(** ** The web handlers *)

Section WebProperties.

Variables (J E : Type).
Variable acquire_token :
  string -> string -> string -> string -> string -> string -> E + session.
Variable send : http_request -> E + J.
Variable excelclient : ExcelClient.

Local Abbreviation token_request := (token_request E acquire_token excelclient).
Local Abbreviation rendered := (rendered J E).

(** The callback, once its three lookups have found their keys. *)
Lemma main_logic_lookups (args s : session) (code state state' : string) :
  session_get "code" args = Some code ->
  session_get "state" args = Some state ->
  session_get "state" s = Some state' ->
  main_logic J E acquire_token excelclient args s
  = if negb (String.eqb state state')
    then (s, Raised (Exception (ValueError "State does not match")))
    else match token_request code with
         | inl e => (s, Raised (External e))
         | inr token_response =>
             match session_get "accessToken" token_response with
             | None => (s, Raised (Exception (KeyError "accessToken")))
             | Some access_token =>
                 (session_set "access_token" access_token s,
                  Returned (Redirect 302 "/graphcall"))
             end
         end.
Proof.
  intros Hcode Hstate Hs. unfold main_logic, token_request.
  rewrite Hcode, Hstate, Hs. reflexivity.
Qed.

(** X13: a callback whose [state] argument is not the state of the
    session gets no token: it raises and leaves the session as it is,
    whatever the token endpoint would answer.  With a code it raises
    [ValueError("State does not match")], the comparison coming before
    the token request; without a code [KeyError("code")], the lookup of
    line 338 coming before the comparison. *)
Theorem main_logic_state_mismatch (args s : session) (state state' : string) :
  session_get "state" args = Some state ->
  session_get "state" s = Some state' ->
  state <> state' ->
  main_logic J E acquire_token excelclient args s
  = (s, Raised (Exception
                  match session_get "code" args with
                  | Some _ => ValueError "State does not match"
                  | None => KeyError "code"
                  end)).
Proof.
  intros Hstate Hs Hne.
  destruct (session_get "code" args) as [code|] eqn:Hcode.
  - rewrite (main_logic_lookups args s code state state' Hcode Hstate Hs).
    destruct (String.eqb_spec state state'); [contradiction | reflexivity].
  - unfold main_logic. rewrite Hcode. reflexivity.
Qed.

(** What a callback that returns has found. *)
Lemma main_logic_Returned_inv (args s s' : session) (resp : response J) :
  main_logic J E acquire_token excelclient args s = (s', Returned resp) ->
  exists code state token_response access_token,
    session_get "code" args = Some code
    /\ session_get "state" args = Some state
    /\ session_get "state" s = Some state
    /\ token_request code = inr token_response
    /\ session_get "accessToken" token_response = Some access_token
    /\ s' = session_set "access_token" access_token s
    /\ resp = Redirect 302 "/graphcall".
Proof.
  intros H.
  destruct (session_get "code" args) as [code|] eqn:Hcode;
    [|unfold main_logic in H; rewrite Hcode in H; discriminate H].
  destruct (session_get "state" args) as [state|] eqn:Hstate;
    [|unfold main_logic in H; rewrite Hcode, Hstate in H; discriminate H].
  destruct (session_get "state" s) as [state'|] eqn:Hs;
    [|unfold main_logic in H; rewrite Hcode, Hstate, Hs in H; discriminate H].
  rewrite (main_logic_lookups args s code state state' Hcode Hstate Hs) in H.
  destruct (String.eqb_spec state state') as [Heq | Hne]; [|discriminate H].
  subst state'. cbn [negb] in H.
  destruct (token_request code) as [e | token_response] eqn:Htoken;
    [discriminate H|].
  destruct (session_get "accessToken" token_response) as [access_token|] eqn:Ht;
    [|discriminate H].
  injection H as <- <-.
  exists code, state, token_response, access_token. repeat split; assumption.
Qed.

(** X14: the callback returns exactly when its arguments hold a code and
    the state of the session, the token endpoint answers, and the answer
    holds an [accessToken]; it then stores that token in the session and
    redirects to "/graphcall". *)
Theorem main_logic_returns_iff (args s s' : session) (resp : response J) :
  main_logic J E acquire_token excelclient args s = (s', Returned resp)
  <->
  exists code state token_response access_token,
    session_get "code" args = Some code
    /\ session_get "state" args = Some state
    /\ session_get "state" s = Some state
    /\ token_request code = inr token_response
    /\ session_get "accessToken" token_response = Some access_token
    /\ s' = session_set "access_token" access_token s
    /\ resp = Redirect 302 "/graphcall".
Proof.
  split.
  - apply main_logic_Returned_inv.
  - intros (code & state & token_response & access_token
            & Hcode & Hstate & Hs & Htoken & Ht & -> & ->).
    rewrite (main_logic_lookups args s code state state Hcode Hstate Hs).
    rewrite String.eqb_refl. cbn [negb]. rewrite Htoken, Ht. reflexivity.
Qed.

(** The callback leaves the session as it is or stores a token in it. *)
Lemma main_logic_session (args s : session) :
  fst (main_logic J E acquire_token excelclient args s) = s
  \/ exists t,
       fst (main_logic J E acquire_token excelclient args s)
       = session_set "access_token" t s.
Proof.
  unfold main_logic.
  repeat match goal with
         | |- context [match ?x with _ => _ end] => destruct x
         | |- context [if ?x then _ else _] => destruct x
         end;
    cbn [fst]; eauto.
Qed.

(** [graphcall] leaves the session as it is. *)
Lemma graphcall_session (configs : descriptor) (rid : string) (s : session) :
  fst (graphcall J E send excelclient configs rid s) = s.
Proof.
  unfold graphcall.
  repeat match goal with
         | |- context [match ?x with _ => _ end] => destruct x
         | |- context [if ?x then _ else _] => destruct x
         end;
    reflexivity.
Qed.

(** What a request does to the state of the session: a login sets it,
    nothing else touches it. *)
Lemma handle_state (r : route) (s : session) :
  session_get "state" (fst (handle J E acquire_token send excelclient r s))
  = match r with
    | Login auth_state => Some auth_state
    | _ => session_get "state" s
    end.
Proof.
  destruct r as [| auth_state | args | configs rid]; cbn [handle].
  - reflexivity.
  - unfold login. cbn [fst]. apply session_get_set_same.
  - destruct (main_logic_session args s) as [-> | [t ->]]; [reflexivity|].
    apply session_get_set_other. discriminate.
  - rewrite graphcall_session. reflexivity.
Qed.

(** What a request does to the token of the session: only a callback whose
    state is that of the session changes it. *)
Lemma handle_token (r : route) (s : session) (t : string) :
  session_get "access_token"
    (fst (handle J E acquire_token send excelclient r s)) = Some t ->
  session_get "access_token" s = Some t
  \/ exists args state,
       r = GetAToken args /\ session_get "state" args = Some state
       /\ session_get "state" s = Some state.
Proof.
  destruct r as [| auth_state | args | configs rid]; cbn [handle].
  - intros H. left. exact H.
  - unfold login. cbn [fst].
    rewrite session_get_set_other by discriminate. intros H. left. exact H.
  - destruct (main_logic J E acquire_token excelclient args s)
      as [s' [resp | f]] eqn:Hm; cbn [fst]; intros H.
    + right. apply main_logic_Returned_inv in Hm
        as (code & state & _ & _ & _ & Hstate & Hs & _).
      exists args, state. repeat split; assumption.
    + left. assert (Hs' : s' = s); [|rewrite <- Hs'; exact H].
      revert Hm. unfold main_logic.
      repeat match goal with
             | |- context [match ?x with _ => _ end] => destruct x
             | |- context [if ?x then _ else _] => destruct x
             end;
        intros Hm; congruence.
  - rewrite graphcall_session. intros H. left. exact H.
Qed.

Lemma browse_app (rs1 rs2 : list route) (s : session) :
  browse J E acquire_token send excelclient (rs1 ++ rs2) s
  = browse J E acquire_token send excelclient rs2
      (browse J E acquire_token send excelclient rs1 s).
Proof.
  revert s. induction rs1 as [|r rs1 IH]; intros s; simpl; [reflexivity|].
  apply IH.
Qed.

(** A session that holds a state got it from the last login. *)
Lemma browse_state (rs : list route) (s0 : session) (u : string) :
  session_get "state" s0 = None ->
  session_get "state" (browse J E acquire_token send excelclient rs s0) = Some u ->
  exists pre mid,
    rs = (pre ++ Login u :: mid)%list /\ forall u', ~ In (Login u') mid.
Proof.
  intros H0. induction rs as [|r rs IH] using rev_ind; intros H.
  - simpl in H. congruence.
  - rewrite browse_app in H. cbn [browse] in H. rewrite handle_state in H.
    destruct r as [| auth_state | args | configs rid].
    + destruct (IH H) as (pre & mid & -> & Hmid).
      exists pre, (mid ++ [Root])%list. split; [rewrite <- app_assoc; reflexivity|].
      intros u' Hin. apply in_app_or in Hin as [Hin | [Heq | []]];
        [exact (Hmid u' Hin) | discriminate Heq].
    + injection H as ->. exists rs, []. split; [reflexivity|]. intros u' [].
    + destruct (IH H) as (pre & mid & -> & Hmid).
      exists pre, (mid ++ [GetAToken args])%list.
      split; [rewrite <- app_assoc; reflexivity|].
      intros u' Hin. apply in_app_or in Hin as [Hin | [Heq | []]];
        [exact (Hmid u' Hin) | discriminate Heq].
    + destruct (IH H) as (pre & mid & -> & Hmid).
      exists pre, (mid ++ [Graphcall configs rid])%list.
      split; [rewrite <- app_assoc; reflexivity|].
      intros u' Hin. apply in_app_or in Hin as [Hin | [Heq | []]];
        [exact (Hmid u' Hin) | discriminate Heq].
Qed.

(** X15: a browser that starts with an empty session holds an access token
    only if, among its requests, a login drew a state [u] and, with no
    other login in between, a callback came with the state argument [u]:
    a callback with a state the server did not issue last never yields a
    token, whatever the token endpoint answers. *)
Theorem browse_token_needs_state (rs : list route) (s0 : session) (t : string) :
  session_get "access_token" s0 = None ->
  session_get "state" s0 = None ->
  session_get "access_token" (browse J E acquire_token send excelclient rs s0)
  = Some t ->
  exists pre u mid args post,
    rs = (pre ++ Login u :: mid ++ GetAToken args :: post)%list
    /\ session_get "state" args = Some u
    /\ forall u', ~ In (Login u') mid.
Proof.
  intros Ht0 Hs0. revert t. induction rs as [|r rs IH] using rev_ind; intros t H.
  - simpl in H. congruence.
  - rewrite browse_app in H. cbn [browse] in H.
    apply handle_token in H as [H | (args & state & -> & Hargs & Hs)].
    + destruct (IH t H) as (pre & u & mid & args & post & -> & Hargs & Hmid).
      exists pre, u, mid, args, (post ++ [r])%list.
      split; [|split; assumption].
      rewrite <- !app_assoc. cbn [app]. rewrite <- app_assoc. reflexivity.
    + destruct (browse_state rs s0 state Hs0 Hs) as (pre & mid & -> & Hmid).
      exists pre, state, mid, args, [].
      split; [|split; assumption].
      rewrite <- app_assoc. reflexivity.
Qed.

(** With a token in the session, [graphcall] fails with
    [UnboundLocalError] exactly for a descriptor whose type is none of the
    five verbs. *)
Lemma graphcall_unbound (configs : descriptor) (rid : string)
  (s s' : session) (name : string) :
  graphcall J E send excelclient configs rid s
  = (s', Raised (UnboundLocalError name))
  <->
  (exists t, session_get "access_token" s = Some t)
  /\ ~ In (type_of_request configs) ["get"; "put"; "patch"; "post"; "delete"]
  /\ s' = s /\ name = "graph_data".
Proof.
  unfold graphcall.
  destruct (session_get "access_token" s) as [t|].
  2:{ split; [discriminate | intros [[t Ht] _]; discriminate Ht]. }
  destruct (String.eqb_spec (type_of_request configs) "get") as [Hget | Hget].
  { split; [destruct (send _); discriminate|].
    intros (_ & Hnot & _). exfalso. apply Hnot. rewrite Hget. simpl. tauto. }
  destruct (String.eqb_spec (type_of_request configs) "put") as [Hput | Hput].
  { split; [destruct (send _); discriminate|].
    intros (_ & Hnot & _). exfalso. apply Hnot. rewrite Hput. simpl. tauto. }
  destruct (String.eqb_spec (type_of_request configs) "patch") as [Hpatch | Hpatch].
  { split; [destruct (send _); discriminate|].
    intros (_ & Hnot & _). exfalso. apply Hnot. rewrite Hpatch. simpl. tauto. }
  destruct (String.eqb_spec (type_of_request configs) "post") as [Hpost | Hpost].
  { split; [destruct (send _); discriminate|].
    intros (_ & Hnot & _). exfalso. apply Hnot. rewrite Hpost. simpl. tauto. }
  destruct (String.eqb_spec (type_of_request configs) "delete") as [Hdel | Hdel].
  { split; [destruct (send _); discriminate|].
    intros (_ & Hnot & _). exfalso. apply Hnot. rewrite Hdel. simpl. tauto. }
  split.
  - intros H. injection H as <- <-.
    split; [exists t; reflexivity|]. split; [|split; reflexivity].
    simpl. intros [Heq | [Heq | [Heq | [Heq | [Heq | []]]]]]; congruence.
  - intros (_ & _ & -> & ->). reflexivity.
Qed.

(** X16: [graphcall] without a token in the session redirects to "/login"
    and asks no server; with a token it fails with [UnboundLocalError]
    exactly for a descriptor whose type is none of "get", "put", "patch",
    "post", "delete" (in lower case): no branch of the chain binds
    [graph_data], and no request is sent. *)
Theorem graphcall_outcomes (configs : descriptor) (rid : string) (s : session) :
  (session_get "access_token" s = None ->
   forall send' : http_request -> E + J,
     graphcall J E send' excelclient configs rid s
     = (s, Returned (Redirect 302 "/login")))
  /\ (forall s' name,
        graphcall J E send excelclient configs rid s
        = (s', Raised (UnboundLocalError name))
        <->
        (exists t, session_get "access_token" s = Some t)
        /\ ~ In (type_of_request configs) ["get"; "put"; "patch"; "post"; "delete"]
        /\ s' = s /\ name = "graph_data").
Proof.
  split.
  - intros Hnone send'. unfold graphcall. rewrite Hnone. reflexivity.
  - intros s' name. apply graphcall_unbound.
Qed.

(** X21: what the handlers write: a login changes the state of the
    session and nothing else, a callback the access token and nothing
    else, and the root route and [graphcall] change nothing. *)
Theorem handle_frame (r : route) (s : session) (k : string) :
  (k = "state" -> forall u, r <> Login u) ->
  (k = "access_token" -> forall args, r <> GetAToken args) ->
  session_get k (fst (handle J E acquire_token send excelclient r s))
  = session_get k s.
Proof.
  intros Hstate Htoken.
  destruct r as [| auth_state | args | configs rid]; cbn [handle].
  - reflexivity.
  - unfold login. cbn [fst]. apply session_get_set_other.
    intros ->. exact (Hstate eq_refl auth_state eq_refl).
  - destruct (main_logic_session args s) as [-> | [t ->]]; [reflexivity|].
    apply session_get_set_other.
    intros ->. exact (Htoken eq_refl args eq_refl).
  - rewrite graphcall_session. reflexivity.
Qed.

(** X17: every descriptor of the six builders is one [graphcall] sends:
    with a token in the session, a "get" descriptor, whose body is [None],
    goes out as [requests.get] with no [json]; a "patch" or "post"
    descriptor as [requests.patch] or [requests.post] with its body as
    [json]; always to the resource, "/", the API version and the path of
    the descriptor, with the token as bearer.  [UnboundLocalError] cannot
    happen for them. *)
Theorem graphcall_of_built (items : dict -> list (string * pyval))
  (d : descriptor) (rid : string) (s : session) (t : string) :
  built items d ->
  session_get "access_token" s = Some t ->
  exists req,
    graphcall J E send excelclient d rid s = (s, rendered (send req))
    /\ url req = RESOURCE excelclient ++ "/" ++ API_VERSION excelclient ++ endpoint d
    /\ headers req = http_headers t rid
    /\ ((type_of_request d = "get" /\ method req = GET /\ json req = None
         /\ request_body d = None)
        \/ (type_of_request d = "patch" /\ method req = PATCH
            /\ json req = Some (request_body d) /\ request_body d <> None)
        \/ (type_of_request d = "post" /\ method req = POST
            /\ json req = Some (request_body d) /\ request_body d <> None)).
Proof.
  intros Hbuilt Ht. unfold graphcall. rewrite Ht.
  destruct Hbuilt as [H | [H | [H | [H | [H | H]]]]].
  - destruct H as (file_id & sheetname & range & data & format & columnHidden
                   & formulas & formulasLocal & formulasR1C1 & rowHidden & H).
    unfold update_range in H. apply bind_Ok in H as (_ & _ & H).
    destruct (is_none data); [discriminate H|].
    apply bind_Ok in H as (_ & _ & H). apply bind_Ok in H as (_ & _ & H).
    apply bind_Ok in H as (body & _ & H). injection H as <-.
    cbn. match goal with |- context [send ?r] => exists r end.
    split; [destruct (send _); reflexivity|]. split; [reflexivity|].
    split; [reflexivity|]. right. left. repeat split. discriminate.
  - destruct H as (file_id & sheetname & range & H).
    unfold get_range in H. apply bind_Ok in H as (_ & _ & H). injection H as <-.
    cbn. match goal with |- context [send ?r] => exists r end.
    split; [destruct (send _); reflexivity|]. split; [reflexivity|].
    split; [reflexivity|]. left. repeat split.
  - destruct H as (file_id & sheetname & range & shift & H).
    unfold insert_empty_cells in H. apply bind_Ok in H as (_ & _ & H).
    injection H as <-.
    cbn. match goal with |- context [send ?r] => exists r end.
    split; [destruct (send _); reflexivity|]. split; [reflexivity|].
    split; [reflexivity|]. right. right. repeat split. discriminate.
  - destruct H as (file_id & sheetname & range & applyTo & H).
    unfold clear_range in H. apply bind_Ok in H as (_ & _ & H).
    injection H as <-.
    cbn. match goal with |- context [send ?r] => exists r end.
    split; [destruct (send _); reflexivity|]. split; [reflexivity|].
    split; [reflexivity|]. right. right. repeat split. discriminate.
  - destruct H as (file_id & sheetname & range & shift & H).
    unfold delete_range in H. apply bind_Ok in H as (_ & _ & H).
    injection H as <-.
    cbn. match goal with |- context [send ?r] => exists r end.
    split; [destruct (send _); reflexivity|]. split; [reflexivity|].
    split; [reflexivity|]. right. right. repeat split. discriminate.
  - destruct H as (file_id & sheetname & range & H).
    unfold get_rangeFormat in H. apply bind_Ok in H as (_ & _ & H).
    injection H as <-.
    cbn. match goal with |- context [send ?r] => exists r end.
    split; [destruct (send _); reflexivity|]. split; [reflexivity|].
    split; [reflexivity|]. left. repeat split.
Qed.

(** X18: a login replaces the state of the session: after two logins a
    callback that brings the state of the first gets no token and leaves
    the session as it is, and the token endpoint is not asked; it raises
    [ValueError("State does not match")] when it carries a code and
    [KeyError("code")] when it carries none. *)
Theorem login_replaces_state (s args : session) (u1 u2 : string) :
  session_get "state" args = Some u1 ->
  u1 <> u2 ->
  handle J E acquire_token send excelclient (GetAToken args)
    (browse J E acquire_token send excelclient [Login u1; Login u2] s)
  = (browse J E acquire_token send excelclient [Login u1; Login u2] s,
     Raised (Exception
               match session_get "code" args with
               | Some _ => ValueError "State does not match"
               | None => KeyError "code"
               end)).
Proof.
  intros Hstate Hne. cbn [handle browse login fst].
  destruct (session_get "code" args) as [code|] eqn:Hcode.
  - rewrite (main_logic_lookups args _ code u1 u2 Hcode Hstate
               (session_get_set_same "state" u2 _)).
    destruct (String.eqb_spec u1 u2); [contradiction | reflexivity].
  - unfold main_logic. rewrite Hcode. reflexivity.
Qed.

(** X19: the three steps together: after a login that drew the state [u],
    a callback with a code and the state [u], answered by the token
    endpoint with the access token [t], stores [t] and redirects to
    "/graphcall"; and [graphcall], for a "post" descriptor such as that of
    the script, then sends one [requests.post] to the resource, "/", the
    API version and the path, with "Bearer " + [t] and the body as
    [json], and renders the reply. *)
Theorem login_callback_graphcall (s args token_response : session)
  (u code t rid : string) (d : descriptor) :
  session_get "code" args = Some code ->
  session_get "state" args = Some u ->
  token_request code = inr token_response ->
  session_get "accessToken" token_response = Some t ->
  type_of_request d = "post" ->
  handle J E acquire_token send excelclient (GetAToken args)
    (browse J E acquire_token send excelclient [Login u] s)
  = (session_set "access_token" t (session_set "state" u s),
     Returned (Redirect 302 "/graphcall"))
  /\ handle J E acquire_token send excelclient (Graphcall d rid)
       (browse J E acquire_token send excelclient [Login u; GetAToken args] s)
     = (session_set "access_token" t (session_set "state" u s),
        rendered
          (send (Request POST
                   (RESOURCE excelclient ++ "/" ++ API_VERSION excelclient
                      ++ endpoint d)
                   (http_headers t rid) (Some (request_body d))))).
Proof.
  intros Hcode Hstate Htoken Ht Hpost.
  assert (Hcallback :
    main_logic J E acquire_token excelclient args (session_set "state" u s)
    = (session_set "access_token" t (session_set "state" u s),
       Returned (Redirect 302 "/graphcall"))).
  { rewrite (main_logic_lookups args _ code u u Hcode Hstate
               (session_get_set_same "state" u s)).
    rewrite String.eqb_refl. cbn [negb]. rewrite Htoken, Ht. reflexivity. }
  split.
  - cbn [handle browse login fst]. exact Hcallback.
  - cbn [handle browse login fst]. rewrite Hcallback. cbn [fst].
    unfold graphcall. rewrite session_get_set_same, Hpost. cbn.
    destruct (send _); reflexivity.
Qed.

End WebProperties.

(** ** The handlers at concrete requests *)

Lemma main_logic_state_mismatch_witness :
  main_logic string string answering_token_endpoint script_client
    [("code", "c0de"); ("state", "forged")] [("state", "issued")]
  = ([("state", "issued")],
     Raised (Exception (ValueError "State does not match"))).
Proof.
  apply (main_logic_state_mismatch string string answering_token_endpoint
           script_client [("code", "c0de"); ("state", "forged")]
           [("state", "issued")] "forged" "issued").
  - reflexivity.
  - reflexivity.
  - discriminate.
Defined.

(** The same callback without a code. *)
Example main_logic_state_mismatch_no_code :
  main_logic string string answering_token_endpoint script_client
    [("state", "forged")] [("state", "issued")]
  = ([("state", "issued")], Raised (Exception (KeyError "code"))).
Proof. reflexivity. Qed.

Lemma browse_token_needs_state_witness :
  exists pre u mid args post,
    [Login "u1"; Root; GetAToken [("code", "c0de"); ("state", "u1")]]
    = (pre ++ Login u :: mid ++ GetAToken args :: post)%list
    /\ session_get "state" args = Some u
    /\ forall u', ~ In (Login u') mid.
Proof.
  apply (browse_token_needs_state string string answering_token_endpoint
           answering_server script_client _ [] "token for c0de").
  - reflexivity.
  - reflexivity.
  - reflexivity.
Defined.

Lemma graphcall_of_built_witness :
  exists req,
    graphcall string string answering_server script_client
      (Descriptor
         "/me/drive/items/X/workbook/worksheets/Sheet1/range(address='A1:B3')/delete"
         "post" (Some [("shift", PStr "Up")]))
      "request id" [("state", "u1"); ("access_token", "t0ken")]
    = ([("state", "u1"); ("access_token", "t0ken")],
       rendered string string (answering_server req))
    /\ url req
       = RESOURCE script_client ++ "/" ++ API_VERSION script_client
           ++ "/me/drive/items/X/workbook/worksheets/Sheet1/range(address='A1:B3')/delete"
    /\ headers req = http_headers "t0ken" "request id"
    /\ (("post" = "get" /\ method req = GET /\ json req = None
         /\ Some [("shift", PStr "Up")] = None)
        \/ ("post" = "patch" /\ method req = PATCH
            /\ json req = Some (Some [("shift", PStr "Up")])
            /\ Some [("shift", PStr "Up")] <> None)
        \/ ("post" = "post" /\ method req = POST
            /\ json req = Some (Some [("shift", PStr "Up")])
            /\ Some [("shift", PStr "Up")] <> None)).
Proof.
  apply (graphcall_of_built string string answering_server script_client
           written_order
           (Descriptor
              "/me/drive/items/X/workbook/worksheets/Sheet1/range(address='A1:B3')/delete"
              "post" (Some [("shift", PStr "Up")]))
           "request id" [("state", "u1"); ("access_token", "t0ken")] "t0ken").
  - right. right. right. right. left.
    exists (PStr "X"), (PStr "Sheet1"), (PStr "A1:B3"), None. reflexivity.
  - reflexivity.
Defined.

Lemma login_replaces_state_witness :
  handle string string answering_token_endpoint answering_server script_client
    (GetAToken [("code", "c0de"); ("state", "u1")])
    [("state", "u2")]
  = ([("state", "u2")], Raised (Exception (ValueError "State does not match"))).
Proof.
  apply (login_replaces_state string string answering_token_endpoint
           answering_server script_client []
           [("code", "c0de"); ("state", "u1")] "u1" "u2").
  - reflexivity.
  - discriminate.
Defined.

Lemma login_callback_graphcall_witness :
  handle string string answering_token_endpoint answering_server script_client
    (Graphcall
       (Descriptor
          "/me/drive/items/X/workbook/worksheets/Sheet1/range(address='A1:B3')/delete"
          "post" (Some [("shift", PStr "Up")]))
       "request id")
    [("state", "u1"); ("access_token", "token for c0de")]
  = ([("state", "u1"); ("access_token", "token for c0de")],
     Returned (Rendered "display_graph_info.html" "{}")).
Proof.
  exact (proj2 (login_callback_graphcall string string answering_token_endpoint
                  answering_server script_client []
                  [("code", "c0de"); ("state", "u1")]
                  [("tokenType", "Bearer"); ("accessToken", "token for c0de")]
                  "u1" "c0de" "token for c0de" "request id"
                  (Descriptor
                     "/me/drive/items/X/workbook/worksheets/Sheet1/range(address='A1:B3')/delete"
                     "post" (Some [("shift", PStr "Up")]))
                  eq_refl eq_refl eq_refl eq_refl eq_refl)).
Defined.

(** ** The builders at concrete calls *)

Lemma update_range_returns_iff_witness :
  update_range_accepts (PStr "X") (PStr "Sheet1") (PStr "A1:B1")
    (PList [[SInt 1; SInt 2]]) (PList [[SStr "0"; SStr "0"]]) (PBool false)
    PNone PNone PNone PNone
  /\ Descriptor
       "/me/drive/items/X/workbook/worksheets/Sheet1/range(address='A1:B1')"
       "patch"
       (Some [("values", PList [[SInt 1; SInt 2]]);
              ("numberFormat", PList [[SStr "0"; SStr "0"]]);
              ("columnHidden", PBool false)])
     = update_range_descriptor (PStr "X") (PStr "Sheet1") (PStr "A1:B1")
         (PList [[SInt 1; SInt 2]]) (PList [[SStr "0"; SStr "0"]]) (PBool false)
         PNone PNone PNone PNone.
Proof.
  apply (proj1 (update_range_returns_iff written_order written_order_perm
                  (PStr "X") (PStr "Sheet1") (PStr "A1:B1")
                  (PList [[SInt 1; SInt 2]]) (PList [[SStr "0"; SStr "0"]])
                  (PBool false) PNone PNone PNone PNone _)).
  reflexivity.
Defined.

Lemma update_range_raises_witness :
  exists k v,
    In (k, v) [("columnHidden", PNone); ("rowHidden", PStr "no")]
    /\ not_bool v = true
    /\ TypeError "Invalid rowHidden type" = TypeError (msg_invalid_type k).
Proof.
  destruct (update_range_raises written_order written_order_perm
              (PStr "X") (PStr "Sheet1") (PStr "A1:B1")
              (PList [[SInt 1; SInt 2]]) PNone PNone PNone PNone PNone
              (PStr "no") (TypeError "Invalid rowHidden type") eq_refl)
    as [(k & v & Hin & Hv & He) | [[_ He] | [(k & v & Hin & _ & Hl & He)
       | [(k & v & _ & _ & _ & He) | H]]]].
  - exfalso. simpl in Hin.
    destruct Hin as [Heq | [Heq | [Heq | []]]]; injection Heq as <- <-;
      discriminate Hv.
  - discriminate He.
  - exfalso. simpl in Hin.
    destruct Hin as [Heq | [Heq | [Heq | [Heq | [Heq | []]]]]];
      injection Heq as <- <-; discriminate.
  - discriminate He.
  - exact H.
Defined.

Lemma post_builders_forward_mode_witness :
  insert_empty_cells written_order (PStr "X") (PStr "Sheet1") (PStr "A1:B3")
    (Some (PStr "Sideways"))
  = Ok (Descriptor
          "/me/drive/items/X/workbook/worksheets/Sheet1/range(address='A1:B3')/insert"
          "post" (Some [("shift", PStr "Sideways")])).
Proof.
  exact (proj1 (post_builders_forward_mode written_order written_order_perm
                  "X" "Sheet1" "A1:B3" "Sideways")).
Defined.

Lemma builders_splice_arguments_witness :
  get_range written_order (PStr "X/workbook/worksheets/Sheet1") (PStr "Sheet2")
    (PStr "A1")
  = get_range written_order (PStr "X")
      (PStr "Sheet1/workbook/worksheets/Sheet2") (PStr "A1").
Proof.
  exact (proj1 (builders_splice_arguments written_order written_order_perm
                  "X" "Sheet1" "Sheet2" "A1")).
Defined.

Lemma handle_frame_witness :
  session_get "access_token"
    (fst (handle string string answering_token_endpoint answering_server
            script_client (Login "u2")
            [("state", "u1"); ("access_token", "t0ken")]))
  = session_get "access_token" [("state", "u1"); ("access_token", "t0ken")].
Proof.
  apply (handle_frame string string answering_token_endpoint answering_server
           script_client (Login "u2")).
  - discriminate.
  - discriminate.
Defined.

(** ** One descriptor per operation *)

Lemma append_inj_l (a b c : string) : a ++ b = a ++ c -> b = c.
Proof.
  induction a as [|x a IH]; simpl; intros H; [exact H|].
  injection H as H. exact (IH H).
Qed.

Lemma range_endpoint_inj_suffix (f s r suffix suffix' : string) :
  range_endpoint f s r suffix = range_endpoint f s r suffix' -> suffix = suffix'.
Proof.
  unfold range_endpoint. intros H.
  repeat (apply append_inj_l in H). exact H.
Qed.

(** X22: for the same file id, sheet and range, no two of the six
    operations give the same descriptor: the paths differ in their suffix,
    and [update_range] and [get_range], which share the path, differ in
    the verb. *)
Theorem builders_distinct (items : dict -> list (string * pyval))
  (f s r : string) (data : pyval) :
  (forall d, Permutation (items d) d) ->
  forall d_get d_format d_insert d_clear d_delete d_update,
    get_range items (PStr f) (PStr s) (PStr r) = Ok d_get ->
    get_rangeFormat items (PStr f) (PStr s) (PStr r) = Ok d_format ->
    insert_empty_cells items (PStr f) (PStr s) (PStr r) None = Ok d_insert ->
    clear_range items (PStr f) (PStr s) (PStr r) None = Ok d_clear ->
    delete_range items (PStr f) (PStr s) (PStr r) None = Ok d_delete ->
    update_range items (PStr f) (PStr s) (PStr r) data PNone PNone PNone PNone
      PNone PNone = Ok d_update ->
    NoDup [d_get; d_format; d_insert; d_clear; d_delete; d_update].
Proof.
  intros Hperm d_get d_format d_insert d_clear d_delete d_update
    Hget Hformat Hinsert Hclear Hdelete Hupdate.
  apply (update_range_Ok_inv items Hperm) in Hupdate as [_ ->].
  unfold get_range, get_rangeFormat, insert_empty_cells, clear_range,
    delete_range in *.
  rewrite (check_str_items_true items Hperm) in Hget, Hformat, Hinsert, Hclear,
    Hdelete by reflexivity.
  cbn [bind str_val keyword] in *.
  change (Ok (Descriptor (range_endpoint f s r EmptyString) "get" None)
          = Ok d_get) in Hget.
  change (Ok (Descriptor (range_endpoint f s r "/format") "get" None)
          = Ok d_format) in Hformat.
  change (Ok (Descriptor (range_endpoint f s r "/insert") "post"
                (Some [("shift", PStr "Down")])) = Ok d_insert) in Hinsert.
  change (Ok (Descriptor (range_endpoint f s r "/clear") "post"
                (Some [("applyTo", PStr "All")])) = Ok d_clear) in Hclear.
  change (Ok (Descriptor (range_endpoint f s r "/delete") "post"
                (Some [("shift", PStr "Up")])) = Ok d_delete) in Hdelete.
  injection Hget as <-. injection Hformat as <-. injection Hinsert as <-.
  injection Hclear as <-. injection Hdelete as <-.
  unfold update_range_descriptor. cbn [str_val].
  repeat (apply NoDup_cons;
          [ cbn [In]; intros Hin;
            repeat (destruct Hin as [Hin | Hin];
                    [ first
                        [ apply (f_equal type_of_request) in Hin;
                          cbn [type_of_request] in Hin; discriminate Hin
                        | apply (f_equal endpoint) in Hin;
                          cbn [endpoint] in Hin;
                          apply range_endpoint_inj_suffix in Hin;
                          discriminate Hin ]
                    | ]);
            exact Hin
          | ]).
  apply NoDup_nil.
Qed.

Lemma builders_distinct_witness :
  NoDup
    [Descriptor "/me/drive/items/X/workbook/worksheets/S/range(address='A1')"
       "get" None;
     Descriptor "/me/drive/items/X/workbook/worksheets/S/range(address='A1')/format"
       "get" None;
     Descriptor "/me/drive/items/X/workbook/worksheets/S/range(address='A1')/insert"
       "post" (Some [("shift", PStr "Down")]);
     Descriptor "/me/drive/items/X/workbook/worksheets/S/range(address='A1')/clear"
       "post" (Some [("applyTo", PStr "All")]);
     Descriptor "/me/drive/items/X/workbook/worksheets/S/range(address='A1')/delete"
       "post" (Some [("shift", PStr "Up")]);
     Descriptor "/me/drive/items/X/workbook/worksheets/S/range(address='A1')"
       "patch" (Some [("values", PList [[SInt 1]])])].
Proof.
  apply (builders_distinct written_order "X" "S" "A1" (PList [[SInt 1]])
           written_order_perm); reflexivity.
Defined.
